(** * Analytics ingestion service: bucket keys, upsert counters, dense series

    A shallow embedding of [src/index.ts] and [src/db.ts].

    - [JSDate] embeds the part of the ECMAScript [Date] object the handlers
      use: time values, [TimeClip], the calendar functions of the language
      specification and [Date.prototype.toISOString].
    - The store (three Mongoose models) is a record of document lists; the
      handlers are programs that suspend at every [await] on a store call.
    - Logging ([console.log], [console.error]) writes nothing to a response
      or to the store and is left out, except where building the logged text
      can throw: the event route puts the event name in a template literal. *)

From Stdlib Require Import ZArith List String Ascii Bool Lia Sorted.
Import ListNotations.

Open Scope string_scope.
Open Scope Z_scope.

(** ** ECMAScript dates *)

Module JSDate.

(** A [Date] object holds a time value: milliseconds since the epoch, or NaN
    ([None]) for an invalid date. *)
Definition Date := option Z.

Definition msPerSecond : Z := 1000.
Definition msPerMinute : Z := 60000.
Definition msPerHour : Z := 3600000.
Definition msPerDay : Z := 86400000.

Definition maxTime : Z := 8640000000000000.

(** [TimeClip]: a time value beyond 8.64e15 ms in magnitude is NaN. *)
Definition TimeClip (time : option Z) : option Z :=
  match time with
  | Some t => if Z.abs t <=? maxTime then Some t else None
  | None => None
  end.

(** [new Date(value)] for a numeric [value]. *)
Definition newDate (value : option Z) : Date := TimeClip value.

(** [d.getTime()]. *)
Definition getTime (d : Date) : option Z := d.

(** Number subtraction [a - b] where [a] may be NaN. *)
Definition minus (a : option Z) (b : Z) : option Z :=
  match a with
  | Some x => Some (x - b)
  | None => None
  end.

Definition Day (t : Z) : Z := t / msPerDay.
Definition TimeWithinDay (t : Z) : Z := t mod msPerDay.

Definition DaysInYear (y : Z) : Z :=
  if negb (y mod 4 =? 0) then 365
  else if negb (y mod 100 =? 0) then 366
  else if negb (y mod 400 =? 0) then 365
  else 366.

Definition DayFromYear (y : Z) : Z :=
  365 * (y - 1970) + (y - 1969) / 4 - (y - 1901) / 100 + (y - 1601) / 400.

Definition TimeFromYear (y : Z) : Z := msPerDay * DayFromYear y.

(** [YearFromTime(t)] is the largest [y] with [TimeFromYear(y) <= t]; it is
    computed from the mean year length (146097 days in 400 years) and
    corrected by at most one year. *)
Definition YearFromTime (t : Z) : Z :=
  let d := Day t in
  let y := 1970 + (400 * d) / 146097 in
  if DayFromYear (y + 1) <=? d then y + 1
  else if d <? DayFromYear y then y - 1
  else y.

Definition InLeapYear (t : Z) : Z :=
  if DaysInYear (YearFromTime t) =? 366 then 1 else 0.

Definition DayWithinYear (t : Z) : Z := Day t - DayFromYear (YearFromTime t).

Definition MonthFromTime (t : Z) : Z :=
  let d := DayWithinYear t in
  let l := InLeapYear t in
  if d <? 31 then 0
  else if d <? 59 + l then 1
  else if d <? 90 + l then 2
  else if d <? 120 + l then 3
  else if d <? 151 + l then 4
  else if d <? 181 + l then 5
  else if d <? 212 + l then 6
  else if d <? 243 + l then 7
  else if d <? 273 + l then 8
  else if d <? 304 + l then 9
  else if d <? 334 + l then 10
  else 11.

Definition DateFromTime (t : Z) : Z :=
  let d := DayWithinYear t in
  let l := InLeapYear t in
  match MonthFromTime t with
  | 0 => d + 1
  | 1 => d - 30
  | 2 => d - 58 - l
  | 3 => d - 89 - l
  | 4 => d - 119 - l
  | 5 => d - 150 - l
  | 6 => d - 180 - l
  | 7 => d - 211 - l
  | 8 => d - 242 - l
  | 9 => d - 272 - l
  | 10 => d - 303 - l
  | _ => d - 333 - l
  end.

Definition HourFromTime (t : Z) : Z := (t / msPerHour) mod 24.
Definition MinFromTime (t : Z) : Z := (t / msPerMinute) mod 60.
Definition SecFromTime (t : Z) : Z := (t / msPerSecond) mod 60.
Definition msFromTime (t : Z) : Z := t mod msPerSecond.

(** The character of a decimal digit. *)
Definition digitChar (d : Z) : ascii := ascii_of_N (48 + Z.to_N d).

(** [ToZeroPaddedDecimalString(n, minLength)] for [0 <= n < 10^minLength],
    most significant digit first.  Every field [toISOString] prints fits its
    width. *)
Fixpoint ToZeroPaddedDecimalString (n : Z) (minLength : nat) : string :=
  match minLength with
  | O => EmptyString
  | S k =>
      String (digitChar ((n / 10 ^ Z.of_nat k) mod 10))
             (ToZeroPaddedDecimalString n k)
  end.

(** The year of an ISO string: four digits for years 0 to 9999, otherwise a
    sign and six digits. *)
Definition YearString (y : Z) : string :=
  if (0 <=? y) && (y <=? 9999) then ToZeroPaddedDecimalString y 4
  else if 0 <? y then "+" ++ ToZeroPaddedDecimalString y 6
  else "-" ++ ToZeroPaddedDecimalString (- y) 6.

(** The ISO-8601 UTC string [YYYY-MM-DDTHH:mm:ss.sssZ] of a finite time value. *)
Definition isoString (t : Z) : string :=
  YearString (YearFromTime t) ++ "-" ++
  ToZeroPaddedDecimalString (MonthFromTime t + 1) 2 ++ "-" ++
  ToZeroPaddedDecimalString (DateFromTime t) 2 ++ "T" ++
  ToZeroPaddedDecimalString (HourFromTime t) 2 ++ ":" ++
  ToZeroPaddedDecimalString (MinFromTime t) 2 ++ ":" ++
  ToZeroPaddedDecimalString (SecFromTime t) 2 ++ "." ++
  ToZeroPaddedDecimalString (msFromTime t) 3 ++ "Z".

End JSDate.

(** [Date.prototype.toISOString] throws a [RangeError] on an invalid date. *)

Record Error := mkError { name : string; message : string }.

Inductive Outcome (A : Type) : Type :=
| Return (a : A)
| Throw (e : Error).

Arguments Return {A} a.
Arguments Throw {A} e.

Definition toISOString (d : JSDate.Date) : Outcome string :=
  match d with
  | Some t => Return (JSDate.isoString t)
  | None => Throw (mkError "RangeError" "Invalid time value")
  end.

(** ** Documents of [db.ts] and the response shapes *)

(** [interface PageLoad]: one counter per (eventType, timeKey). *)
Module PageLoad.
Record t := mk
  { eventType : string;
    timeKey : string;
    count : Z;
    lastUpdated : JSDate.Date }.
End PageLoad.

(** One element of the array [GET /api/analytics/pageloads] returns. *)
Module Slot.
Record t := mk
  { timeKey : string;
    displayTime : string;
    count : Z }.
End Slot.

(** The filter and the update document of the [findOneAndUpdate] call. *)
Record Filter := mkFilter { filterEventType : string; filterTimeKey : string }.
Record Update := mkUpdate { inc_count : Z; set_lastUpdated : JSDate.Date }.

(** The filter of the [find] call:
    [{ eventType, timeKey: { $gte, $lte } }], sorted by [timeKey]. *)
Record RangeQuery := mkRangeQuery { queryEventType : string; gte : string; lte : string }.

(** A JSON response body: [{ success }], [{ success, error }], or the array of
    slots. *)
Inductive ResponseJson :=
| Result (success : bool) (error : option string)
| PageLoads (pageLoads : list Slot.t).

Record Response := mkResponse { status : Z; json : ResponseJson }.

(** [errorHandler]: [res.status(500).json({ success: false, error: err.message })]. *)
Definition errorHandler (err : Error) : Response :=
  mkResponse 500 (Result false (Some (message err))).

(** [a || b] on a header value: [undefined] and the empty string are falsy. *)
Definition orDefault (a : option string) (b : string) : string :=
  match a with
  | Some s => if String.eqb s "" then b else s
  | None => b
  end.

(** *** The [PageLoad] collection *)

Definition matchesFilter (f : Filter) (d : PageLoad.t) : bool :=
  String.eqb (PageLoad.eventType d) (filterEventType f)
  && String.eqb (PageLoad.timeKey d) (filterTimeKey f).

Definition applyUpdate (u : Update) (d : PageLoad.t) : PageLoad.t :=
  PageLoad.mk (PageLoad.eventType d) (PageLoad.timeKey d)
              (PageLoad.count d + inc_count u) (set_lastUpdated u).

(** Update the first document the filter matches, if there is one. *)
Fixpoint updateFirst (f : Filter) (u : Update) (docs : list PageLoad.t)
  : option (list PageLoad.t) :=
  match docs with
  | [] => None
  | d :: rest =>
      if matchesFilter f d then Some (applyUpdate u d :: rest)
      else match updateFirst f u rest with
           | Some rest' => Some (d :: rest')
           | None => None
           end
  end.

(** [findOneAndUpdate(filter, { $inc, $set }, { upsert: true })]: when no
    document matches, one is inserted with the filter's fields, [$inc] applied
    to an absent [count] (0) and [$set] applied.  The schema default of
    [count] is not used for a path the update itself modifies. *)
Definition findOneAndUpdate (f : Filter) (u : Update) (docs : list PageLoad.t)
  : list PageLoad.t :=
  match updateFirst f u docs with
  | Some docs' => docs'
  | None =>
      docs ++ [PageLoad.mk (filterEventType f) (filterTimeKey f)
                           (0 + inc_count u) (set_lastUpdated u)]
  end.

Definition matchesQuery (q : RangeQuery) (d : PageLoad.t) : bool :=
  String.eqb (PageLoad.eventType d) (queryEventType q)
  && String.leb (gte q) (PageLoad.timeKey d)
  && String.leb (PageLoad.timeKey d) (lte q).

(** [.sort({ timeKey: 1 })]: ascending by code unit order. *)
Fixpoint insertByTimeKey (d : PageLoad.t) (sorted : list PageLoad.t) : list PageLoad.t :=
  match sorted with
  | [] => [d]
  | x :: rest =>
      if String.leb (PageLoad.timeKey d) (PageLoad.timeKey x) then d :: sorted
      else x :: insertByTimeKey d rest
  end.

Definition sortByTimeKey (docs : list PageLoad.t) : list PageLoad.t :=
  fold_right insertByTimeKey [] docs.

Definition find (q : RangeQuery) (docs : list PageLoad.t) : list PageLoad.t :=
  sortByTimeKey (filter (matchesQuery q) docs).

(** ** The bucket key of the specification *)

(** [TimeBucketer.bucketKey]: the ISO-8601 UTC string of the instant,
    truncated to its first 16 characters, with ["0:00"] appended. *)
Definition bucketKey (t : Z) : string :=
  string_of_list_ascii (firstn 16 (list_ascii_of_string (JSDate.isoString t))) ++ "0:00".

(** A time value a [Date] can hold. *)
Definition validTime (t : Z) : Prop := Z.abs t <= JSDate.maxTime.

(** Time values whose ISO year has four digits: 0000-01-01T00:00:00.000Z up to
    9999-12-31T23:59:59.999Z. *)
Definition fourDigitYear (t : Z) : Prop :=
  -62167219200000 <= t <= 253402300799999.

(** ** The server *)

Section Server.

(** JSON numbers and their [Number::toString], and the locale-dependent
    [Date.prototype.toLocaleTimeString] of a valid date, are left abstract. *)
Variable Num : Type.
Variable NumberToString : Num -> string.
Variable toLocaleTimeString : Z -> string.

(** A request body after [express.json()], or a property read from it. *)
#[warnings="-register-all"]
Inductive JSValue :=
| JUndefined
| JNull
| JBool (b : bool)
| JNumber (n : Num)
| JString (s : string)
| JArray (elements : list JSValue)
| JObject (fields : list (string * JSValue)).

Fixpoint lookupField (key : string) (fields : list (string * JSValue)) : option JSValue :=
  match fields with
  | [] => None
  | (k, v) :: rest => if String.eqb k key then Some v else lookupField key rest
  end.

(** The error [ToPrimitive] throws when neither [toString] nor [valueOf]
    gives a primitive. *)
Definition notPrimitive : Error :=
  mkError "TypeError" "Cannot convert object to primitive value".

(** [ToString], as a template literal applies it.  An array joins its
    elements with commas, left to right, [null] and [undefined] elements
    printing empty.  A parsed object prints ["[object Object]"] through
    [Object.prototype.toString], unless it has an own ["toString"] key: a
    parsed value is never callable and the inherited [valueOf] returns the
    object itself, so the conversion throws a [TypeError]. *)
Fixpoint ToString (v : JSValue) : Outcome string :=
  match v with
  | JUndefined => Return "undefined"
  | JNull => Return "null"
  | JBool true => Return "true"
  | JBool false => Return "false"
  | JNumber n => Return (NumberToString n)
  | JString s => Return s
  | JArray elements =>
      (fix join (l : list JSValue) : Outcome string :=
         match l with
         | [] => Return ""
         | x :: rest =>
             match (match x with
                    | JUndefined | JNull => Return ""
                    | _ => ToString x
                    end) with
             | Throw e => Throw e
             | Return sx =>
                 match rest with
                 | [] => Return sx
                 | _ :: _ =>
                     match join rest with
                     | Throw e => Throw e
                     | Return sr => Return (sx ++ "," ++ sr)
                     end
                 end
             end
         end) elements
  | JObject fields =>
      match lookupField "toString" fields with
      | Some _ => Throw notPrimitive
      | None => Return "[object Object]"
      end
  end.

(** [v[key]] for a key that is no built-in property of arrays or strings. *)
Definition getProperty (v : JSValue) (key : string) : JSValue :=
  match v with
  | JObject fields =>
      match lookupField key fields with
      | Some x => x
      | None => JUndefined
      end
  | _ => JUndefined
  end.

(** [const { event, data } = body]: destructuring [undefined] or [null]
    throws a [TypeError]. *)
Definition destructureEventData (body : JSValue) : Outcome (JSValue * JSValue) :=
  match body with
  | JUndefined =>
      Throw (mkError "TypeError"
        "Cannot destructure property 'event' of 'req.body' as it is undefined.")
  | JNull =>
      Throw (mkError "TypeError"
        "Cannot destructure property 'event' of 'req.body' as it is null.")
  | _ => Return (getProperty body "event", getProperty body "data")
  end.

(** What a handler reads of the request. *)
Record Request := mkRequest
  { body : JSValue;
    headers_user_agent : option string;
    headers_referer : option string;
    ip : option string }.

(** [interface PageLoadDetail] and [interface AnalyticsEvent]. *)
Record Detail := mkDetail
  { eventType : string;
    timeKey : string;
    timestamp : JSDate.Date;
    userAgent : string;
    ipAddress : option string;
    referrer : string;
    eventData : JSValue }.

(** *** Store calls *)

Inductive StoreOp :=
| PageLoadModel_findOneAndUpdate (filter : Filter) (update : Update)
| PageLoadDetailModel_create (doc : Detail)
| AnalyticsEventModel_create (doc : Detail)
| PageLoadModel_find (query : RangeQuery).

(** What the handler uses of the resolved value. *)
Definition resultOf (op : StoreOp) : Type :=
  match op with
  | PageLoadModel_find _ => list PageLoad.t
  | _ => unit
  end.

Record Store := mkStore
  { pageLoads : list PageLoad.t;
    pageLoadDetails : list Detail;
    analyticsEvents : list Detail }.

(** The effect of a store call that succeeds.  Each call is one atomic
    operation of the store. *)
Definition applyOp (op : StoreOp) (s : Store) : resultOf op * Store :=
  match op as o return resultOf o * Store with
  | PageLoadModel_findOneAndUpdate f u =>
      (tt, mkStore (findOneAndUpdate f u (pageLoads s)) (pageLoadDetails s) (analyticsEvents s))
  | PageLoadDetailModel_create doc =>
      (tt, mkStore (pageLoads s) (pageLoadDetails s ++ [doc]) (analyticsEvents s))
  | AnalyticsEventModel_create doc =>
      (tt, mkStore (pageLoads s) (pageLoadDetails s) (analyticsEvents s ++ [doc]))
  | PageLoadModel_find q =>
      (find q (pageLoads s), s)
  end.

(** The store, the failures its next calls will meet ([Some e]: the call
    rejects with [e] and changes nothing; an exhausted list: no failure) and
    the calls issued so far. *)
Record World := mkWorld
  { db : Store;
    faults : list (option Error);
    calls : list StoreOp }.

Definition execOp (op : StoreOp) (w : World) : Outcome (resultOf op) * World :=
  match faults w with
  | Some e :: later => (Throw e, mkWorld (db w) later (calls w ++ [op]))
  | None :: later =>
      let (r, s) := applyOp op (db w) in
      (Return r, mkWorld s later (calls w ++ [op]))
  | [] =>
      let (r, s) := applyOp op (db w) in
      (Return r, mkWorld s [] (calls w ++ [op]))
  end.

(** *** Asynchronous handlers *)

(** An [async] function body: settled, or suspended at an [await] of a store
    call with the rest of the body as continuation. *)
Inductive Async (A : Type) : Type :=
| Settled (o : Outcome A)
| Await (op : StoreOp) (k : Outcome (resultOf op) -> Async A).

Arguments Settled {A} o.
Arguments Await {A} op k.

Definition ret {A} (a : A) : Async A := Settled (Return a).

Definition lift {A} (o : Outcome A) : Async A := Settled o.

Definition await (op : StoreOp) : Async (resultOf op) :=
  Await op (fun r => Settled r).

Fixpoint bind {A B} (m : Async A) (f : A -> Async B) : Async B :=
  match m with
  | Settled (Return a) => f a
  | Settled (Throw e) => Settled (Throw e)
  | Await op k => Await op (fun r => bind (k r) f)
  end.

(** [try { m } catch (error) { h error }]. *)
Fixpoint tryCatch {A} (m : Async A) (h : Error -> Async A) : Async A :=
  match m with
  | Settled (Return a) => Settled (Return a)
  | Settled (Throw e) => h e
  | Await op k => Await op (fun r => tryCatch (k r) h)
  end.

Notation "x <- m ;; f" := (bind m (fun x => f))
  (at level 61, m at next level, right associativity).

(** Run one handler to completion against the store. *)
Fixpoint run {A} (m : Async A) (w : World) : Outcome A * World :=
  match m with
  | Settled o => (o, w)
  | Await op k => let (r, w') := execOp op w in run (k r) w'
  end.

(** [catch (error) { next(error) }]: Express hands the error to
    [errorHandler], which sends the response. *)
Definition next (error : Error) : Async Response := ret (errorHandler error).

(** *** POST /api/analytics/pageload

    Each route is the body of its [try] block and the handler that wraps it.

    [now] is the time value [new Date()] reads and [uuid] what [uuidv4()]
    returns. *)
Definition pageloadTry (now : Z) (uuid : string) (req : Request) : Async Response :=
  let timestamp := JSDate.newDate (Some now) in
  iso <- lift (toISOString timestamp) ;;
  let minuteKey := substring 0 16 iso ++ "0:00" in
  _ <- await (PageLoadModel_findOneAndUpdate
                (mkFilter "pageLoad" minuteKey)
                (mkUpdate 1 timestamp)) ;;
  _ <- await (PageLoadDetailModel_create
                (mkDetail "pageLoadDetail"
                          (minuteKey ++ "#" ++ uuid)
                          timestamp
                          (orDefault (headers_user_agent req) "Unknown")
                          (ip req)
                          (orDefault (headers_referer req) "Direct")
                          (body req))) ;;
  ret (mkResponse 200 (Result true None)).

Definition pageloadHandler (now : Z) (uuid : string) (req : Request) : Async Response :=
  tryCatch (pageloadTry now uuid req) next.

(** *** POST /api/analytics/event

    The event name is converted to a string twice, in the order of the
    source: for the log line [`... Logging analytics event: ${event}`] and
    for [`event_${event}`], which is built before the [timeKey]. *)
Definition eventTry (now : Z) (uuid : string) (req : Request) : Async Response :=
  ed <- lift (destructureEventData (body req)) ;;
  let event := fst ed in
  let data := snd ed in
  let timestamp := JSDate.newDate (Some now) in
  _ <- lift (ToString event) ;;
  eventName <- lift (ToString event) ;;
  iso <- lift (toISOString timestamp) ;;
  _ <- await (AnalyticsEventModel_create
                (mkDetail ("event_" ++ eventName)
                          (iso ++ "#" ++ uuid)
                          timestamp
                          (orDefault (headers_user_agent req) "Unknown")
                          (ip req)
                          (orDefault (headers_referer req) "Direct")
                          data)) ;;
  ret (mkResponse 200 (Result true None)).

Definition eventHandler (now : Z) (uuid : string) (req : Request) : Async Response :=
  tryCatch (eventTry now uuid req) next.

(** *** GET /api/analytics/pageloads *)

(** [d.toLocaleTimeString()]. *)
Definition toLocaleTimeStringOf (d : JSDate.Date) : string :=
  match d with
  | Some t => toLocaleTimeString t
  | None => "Invalid Date"
  end.

(** [for (let i = ...; i < 60; i++) { ...; pageLoads.unshift(slot) }] with
    [remaining] iterations to go. *)
Fixpoint forLoop (endTime : JSDate.Date) (result : list PageLoad.t)
    (remaining : nat) (i : Z) (pageLoads : list Slot.t) : Outcome (list Slot.t) :=
  match remaining with
  | O => Return pageLoads
  | S remaining' =>
      let minuteTime :=
        JSDate.newDate (JSDate.minus (JSDate.getTime endTime) (i * 60 * 1000)) in
      match toISOString minuteTime with
      | Throw e => Throw e
      | Return iso =>
          let minuteKey := substring 0 16 iso ++ "0:00" in
          let existingRecord :=
            List.find (fun item => String.eqb (PageLoad.timeKey item) minuteKey) result in
          forLoop endTime result remaining' (i + 1)
            (Slot.mk minuteKey
                     (toLocaleTimeStringOf minuteTime)
                     (match existingRecord with
                      | Some r => PageLoad.count r
                      | None => 0
                      end)
             :: pageLoads)
      end
  end.

Definition pageloadsTry (now : Z) : Async Response :=
  let endTime := JSDate.newDate (Some now) in
  let startTime :=
    JSDate.newDate (JSDate.minus (JSDate.getTime endTime) (60 * 60 * 1000)) in
  startIso <- lift (toISOString startTime) ;;
  let startTimeKey := substring 0 16 startIso ++ "0:00" in
  endIso <- lift (toISOString endTime) ;;
  let endTimeKey := substring 0 16 endIso ++ "0:00" in
  result <- await (PageLoadModel_find
                     (mkRangeQuery "pageLoad" startTimeKey endTimeKey)) ;;
  pageLoads <- lift (forLoop endTime result 60 0 []) ;;
  ret (mkResponse 200 (PageLoads pageLoads)).

Definition pageloadsHandler (now : Z) : Async Response :=
  tryCatch (pageloadsTry now) next.

(** *** Concurrent requests

    The process runs many handlers at once; each runs until its next [await],
    the store performs that call atomically, and the handler resumes.  A
    schedule names, step by step, the handler that advances. *)
Definition stepHandler {A} (h : Async A) (w : World) : Async A * World :=
  match h with
  | Settled o => (Settled o, w)
  | Await op k => let (r, w') := execOp op w in (k r, w')
  end.

Fixpoint stepAt {A} (i : nat) (pool : list (Async A)) (w : World) {struct pool}
  : list (Async A) * World :=
  match pool with
  | [] => ([], w)
  | h :: rest =>
      match i with
      | O => let (h', w') := stepHandler h w in (h' :: rest, w')
      | S j => let (rest', w') := stepAt j rest w in (h :: rest', w')
      end
  end.

Fixpoint interleave {A} (schedule : list nat) (pool : list (Async A)) (w : World)
  : list (Async A) * World :=
  match schedule with
  | [] => (pool, w)
  | i :: later => let (pool', w') := stepAt i pool w in interleave later pool' w'
  end.

Definition isSettled {A} (h : Async A) : bool :=
  match h with
  | Settled _ => true
  | Await _ _ => false
  end.

(** [displayTime] of the specification. *)
Definition displayTime (t : Z) : string := toLocaleTimeString t.

(** [SeriesBuilder] of the specification: the slot of index [i] and the 60
    slots for [i] from 59 down to 0. *)
Definition seriesSlot (now : Z) (counters : list PageLoad.t) (i : Z) : Slot.t :=
  let minuteTime := now - i * 60000 in
  let key := bucketKey minuteTime in
  Slot.mk key (displayTime minuteTime)
          (match List.find (fun c => String.eqb (PageLoad.timeKey c) key) counters with
           | Some c => PageLoad.count c
           | None => 0
           end).

Definition buildLast60Minutes (now : Z) (counters : list PageLoad.t) : list Slot.t :=
  map (fun i => seriesSlot now counters (Z.of_nat i)) (rev (seq 0 60)).

(** The counters of one (eventType, timeKey) pair, and the count the pair
    has reached. *)
Definition countersFor (et tk : string) (docs : list PageLoad.t) : list PageLoad.t :=
  filter (matchesFilter (mkFilter et tk)) docs.

Definition bucketCount (et tk : string) (docs : list PageLoad.t) : Z :=
  match List.find (matchesFilter (mkFilter et tk)) docs with
  | Some d => PageLoad.count d
  | None => 0
  end.

(** The next [n] store calls meet no failure. *)
Definition succeeds (n : nat) (w : World) : Prop :=
  Forall (fun f => f = None) (firstn n (faults w)).

(** The requests the server accepts, each with what its handler reads of the
    clock and of the identifier generator. *)
Inductive Incoming :=
| PostPageload (now : Z) (uuid : string) (req : Request)
| PostEvent (now : Z) (uuid : string) (req : Request)
| GetPageloads (now : Z).

Definition handle (r : Incoming) : Async Response :=
  match r with
  | PostPageload now uuid req => pageloadHandler now uuid req
  | PostEvent now uuid req => eventHandler now uuid req
  | GetPageloads now => pageloadsHandler now
  end.

(** A page load received at a time whose bucket key is [K]. *)
Definition incrementsKey (K : string) (r : Incoming) : bool :=
  match r with
  | PostPageload now _ _ => (Z.abs now <=? JSDate.maxTime) && String.eqb (bucketKey now) K
  | _ => false
  end.

(** A store call that writes the counter of (["pageLoad"], [K]). *)
Definition touches (K : string) (op : StoreOp) : bool :=
  match op with
  | PageLoadModel_findOneAndUpdate f _ =>
      String.eqb (filterEventType f) "pageLoad" && String.eqb (filterTimeKey f) K
  | _ => false
  end.

(** The handlers of a pool that are suspended at a write of that counter. *)
Fixpoint pendingIncrements (K : string) (pool : list (Async Response)) : nat :=
  match pool with
  | [] => O
  | Await op _ :: rest =>
      if touches K op then S (pendingIncrements K rest) else pendingIncrements K rest
  | Settled _ :: rest => pendingIncrements K rest
  end.

(** A handler that will not write that counter any more. *)
Inductive Quiet (K : string) : Async Response -> Prop :=
| Quiet_settled o : Quiet K (Settled o)
| Quiet_await op k :
    touches K op = false -> (forall r, Quiet K (k r)) -> Quiet K (Await op k).

(** A handler suspended at its one increment of that counter, stamped with
    one of the times [T]. *)
Definition Pending (K : string) (T : Z -> Prop) (h : Async Response) : Prop :=
  exists ts k,
    T ts
    /\ h = Await (PageLoadModel_findOneAndUpdate (mkFilter "pageLoad" K)
                                                (mkUpdate 1 (Some ts))) k
    /\ forall r, Quiet K (k r).

(** The counter of (["pageLoad"], [K]) stands at [c]: absent at 0, otherwise
    the only one of its pair, last updated at one of the times [T]. *)
Definition counterStands (K : string) (T : Z -> Prop) (c : nat) (docs : list PageLoad.t)
  : Prop :=
  match c with
  | O => countersFor "pageLoad" K docs = []
  | S _ =>
      exists ts, T ts
        /\ countersFor "pageLoad" K docs = [PageLoad.mk "pageLoad" K (Z.of_nat c) (Some ts)]
  end.

(** The times of the page loads of [reqs] that increment the counter of [K]. *)
Definition stamps (K : string) (reqs : list Incoming) (ts : Z) : Prop :=
  exists uuid req,
    In (PostPageload ts uuid req) reqs
    /\ incrementsKey K (PostPageload ts uuid req) = true.

(** The invariant of a pool of running handlers: no store failure is due,
    every handler is pending or quiet, and the count the counter stands at
    plus the pending increments is [N]. *)
Definition Balanced (K : string) (T : Z -> Prop) (N : nat)
    (pool : list (Async Response)) (w : World) : Prop :=
  faults w = []
  /\ Forall (fun h => Pending K T h \/ Quiet K h) pool
  /\ exists c, counterStands K T c (pageLoads (db w))
               /\ (c + pendingIncrements K pool = N)%nat.

(** What the request boundary does with the outcome of a [try] block: an
    error [e] thrown in the block gives the response 500
    [{ success: false, error: e.message }], and a block that returns gives its
    own response, with status 200. *)
Definition caughtAtBoundary (block handler : Async Response) (w : World) : Prop :=
  match run block w with
  | (Throw e, w') =>
      run handler w = (Return (mkResponse 500 (Result false (Some (message e)))), w')
  | (Return r, w') => run handler w = (Return r, w') /\ status r = 200
  end.

(** ** Invariants of the store *)

(** The unique index of [pageLoadSchema]: no two counters share a pair
    (eventType, timeKey). *)
Definition uniquePairs (docs : list PageLoad.t) : Prop :=
  NoDup (map (fun d => (PageLoad.eventType d, PageLoad.timeKey d)) docs).

(** Ascending [timeKey] order, as [.sort({ timeKey: 1 })] returns. *)
Definition ascendingByTimeKey (docs : list PageLoad.t) : Prop :=
  Sorted (fun a b => String.leb (PageLoad.timeKey a) (PageLoad.timeKey b) = true) docs.

(** The shape of the store calls the routes issue: an increment by one of a
    ["pageLoad"] counter, a page-load detail or an event record with a
    non-empty user agent and referrer, a range query. *)
Definition routeCall (op : StoreOp) : Prop :=
  match op with
  | PageLoadModel_findOneAndUpdate f u =>
      filterEventType f = "pageLoad" /\ inc_count u = 1
  | PageLoadDetailModel_create d =>
      eventType d = "pageLoadDetail" /\ userAgent d <> "" /\ referrer d <> ""
  | AnalyticsEventModel_create d =>
      String.prefix "event_" (eventType d) = true
      /\ userAgent d <> "" /\ referrer d <> ""
  | PageLoadModel_find q => queryEventType q = "pageLoad"
  end.

(** A handler that issues such calls only, whatever the store answers. *)
Inductive Disciplined : Async Response -> Prop :=
| Disciplined_settled o : Disciplined (Settled o)
| Disciplined_await op k :
    routeCall op -> (forall r, Disciplined (k r)) -> Disciplined (Await op k).

(** The documents such calls leave in the three collections. *)
Definition wellFormedStore (s : Store) : Prop :=
  Forall (fun c => PageLoad.eventType c = "pageLoad" /\ 1 <= PageLoad.count c)
         (pageLoads s)
  /\ Forall (fun d => eventType d = "pageLoadDetail"
                      /\ userAgent d <> "" /\ referrer d <> "")
            (pageLoadDetails s)
  /\ Forall (fun d => String.prefix "event_" (eventType d) = true
                      /\ userAgent d <> "" /\ referrer d <> "")
            (analyticsEvents s).

(** [s'] has grown out of [s]: the detail collections were only appended to
    and no count went down. *)
Definition grownFrom (s s' : Store) : Prop :=
  (exists added, pageLoadDetails s' = (pageLoadDetails s ++ added)%list)
  /\ (exists added, analyticsEvents s' = (analyticsEvents s ++ added)%list)
  /\ forall et tk,
       bucketCount et tk (pageLoads s) <= bucketCount et tk (pageLoads s').

(** As [Balanced], for a store that may fail calls: the count plus the
    pending increments is at most [N]. *)
Definition Bounded (K : string) (T : Z -> Prop) (N : nat)
    (pool : list (Async Response)) (w : World) : Prop :=
  Forall (fun h => Pending K T h \/ Quiet K h) pool
  /\ exists c, counterStands K T c (pageLoads (db w))
               /\ (c + pendingIncrements K pool <= N)%nat.

(** * Properties *)

(** ** Calendar arithmetic *)

(** [toISOString] at the epoch, on a leap day, around the years 0 and 10000,
    and at the two ends of the range of a [Date]. *)
Example iso_epoch : JSDate.isoString 0 = "1970-01-01T00:00:00.000Z".
Proof. reflexivity. Qed.

Example iso_2024 : JSDate.isoString 1705314225678 = "2024-01-15T10:23:45.678Z".
Proof. vm_compute. reflexivity. Qed.

Example iso_leap : JSDate.isoString 1709251199999 = "2024-02-29T23:59:59.999Z".
Proof. vm_compute. reflexivity. Qed.

Example iso_y10k : JSDate.isoString 253402300800000 = "+010000-01-01T00:00:00.000Z".
Proof. vm_compute. reflexivity. Qed.

Example iso_9999 : JSDate.isoString 253402300799999 = "9999-12-31T23:59:59.999Z".
Proof. vm_compute. reflexivity. Qed.

Example iso_neg : JSDate.isoString (-62167219200001) = "-000001-12-31T23:59:59.999Z".
Proof. vm_compute. reflexivity. Qed.

Example iso_y0 : JSDate.isoString (-62167219200000) = "0000-01-01T00:00:00.000Z".
Proof. vm_compute. reflexivity. Qed.

Example iso_max : JSDate.isoString 8640000000000000 = "+275760-09-13T00:00:00.000Z".
Proof. vm_compute. reflexivity. Qed.

Example iso_min : JSDate.isoString (-8640000000000000) = "-271821-04-20T00:00:00.000Z".
Proof. vm_compute. reflexivity. Qed.

Import JSDate.

Lemma DaysInYear_cases y : DaysInYear y = 365 \/ DaysInYear y = 366.
Proof using.
  unfold DaysInYear.
  destruct (y mod 4 =? 0), (y mod 100 =? 0), (y mod 400 =? 0); cbn [negb]; auto.
Qed.

Lemma mod4_of_mod100 y : y mod 100 = 0 -> y mod 4 = 0.
Proof using.
  intros H. rewrite <- (Z.mod_mod_divide y 100 4) by (exists 25; lia).
  rewrite H. reflexivity.
Qed.

Lemma mod100_of_mod400 y : y mod 400 = 0 -> y mod 100 = 0.
Proof using.
  intros H. rewrite <- (Z.mod_mod_divide y 400 100) by (exists 4; lia).
  rewrite H. reflexivity.
Qed.

Lemma div_shift a c k : 0 < c -> (a - k * c) / c = a / c - k.
Proof using.
  intros Hc. replace (a - k * c) with (a + (- k) * c) by lia.
  rewrite Z.div_add by lia. lia.
Qed.

Lemma div_pred a c : 0 < c ->
  (a - 1) / c = if a mod c =? 0 then a / c - 1 else a / c.
Proof using.
  intros Hc. destruct (Z.eqb_spec (a mod c) 0) as [H|H].
  - symmetry. apply (Z.div_unique (a - 1) c (a / c - 1) (c - 1)); [lia|].
    pose proof (Z.div_mod a c ltac:(lia)). lia.
  - symmetry. apply (Z.div_unique (a - 1) c (a / c) (a mod c - 1)).
    + pose proof (Z.mod_pos_bound a c Hc). lia.
    + pose proof (Z.div_mod a c ltac:(lia)). lia.
Qed.

Lemma DayFromYear_alt y :
  DayFromYear y =
  365 * (y - 1970) + ((y - 1) / 4 - 492) - ((y - 1) / 100 - 19) + ((y - 1) / 400 - 4).
Proof using.
  unfold DayFromYear.
  replace (y - 1969) with (y - 1 - 492 * 4) by lia.
  replace (y - 1901) with (y - 1 - 19 * 100) by lia.
  replace (y - 1601) with (y - 1 - 4 * 400) by lia.
  rewrite !div_shift by lia. reflexivity.
Qed.

Lemma DayFromYear_succ y : DayFromYear (y + 1) = DayFromYear y + DaysInYear y.
Proof using.
  rewrite !DayFromYear_alt. replace (y + 1 - 1) with y by lia.
  rewrite (div_pred y 4), (div_pred y 100), (div_pred y 400) by lia.
  unfold DaysInYear.
  destruct (Z.eqb_spec (y mod 4) 0) as [H4|H4];
  destruct (Z.eqb_spec (y mod 100) 0) as [H100|H100];
  destruct (Z.eqb_spec (y mod 400) 0) as [H400|H400]; cbn [negb];
  try (exfalso; apply H4, mod4_of_mod100; assumption);
  try (exfalso; apply H4, mod4_of_mod100, mod100_of_mod400; assumption);
  try (exfalso; apply H100, mod100_of_mod400; assumption); lia.
Qed.

Lemma DayFromYear_lt y1 y2 : y1 < y2 -> DayFromYear y1 < DayFromYear y2.
Proof using.
  intros H. rewrite !DayFromYear_alt.
  pose proof (Z.div_le_mono (y1 - 1) (y2 - 1) 4 ltac:(lia) ltac:(lia)).
  pose proof (Z.div_le_mono (y1 - 1) (y2 - 1) 400 ltac:(lia) ltac:(lia)).
  assert ((y2 - 1) / 100 - (y1 - 1) / 100 <= y2 - y1).
  { pose proof (Z.div_mod (y1 - 1) 100 ltac:(lia)).
    pose proof (Z.div_mod (y2 - 1) 100 ltac:(lia)).
    pose proof (Z.mod_pos_bound (y1 - 1) 100 ltac:(lia)).
    pose proof (Z.mod_pos_bound (y2 - 1) 100 ltac:(lia)). lia. }
  lia.
Qed.

Lemma DayFromYear_le y1 y2 : y1 <= y2 -> DayFromYear y1 <= DayFromYear y2.
Proof using.
  intros H. destruct (Z.eq_dec y1 y2) as [->|Hne]; [lia|].
  pose proof (DayFromYear_lt y1 y2). lia.
Qed.

Lemma YearFromTime_spec t :
  DayFromYear (YearFromTime t) <= Day t < DayFromYear (YearFromTime t + 1).
Proof using.
  clear Num NumberToString toLocaleTimeString.
  unfold YearFromTime.
  set (d := Day t). set (y := 1970 + 400 * d / 146097).
  assert (Hlo : DayFromYear (y - 1) <= d).
  { unfold DayFromYear, y. Z.div_mod_to_equations. lia. }
  assert (Hhi : d < DayFromYear (y + 2)).
  { unfold DayFromYear, y. Z.div_mod_to_equations. lia. }
  cbv zeta.
  destruct (Z.leb_spec (DayFromYear (y + 1)) d).
  - replace (y + 1 + 1) with (y + 2) by lia. lia.
  - destruct (Z.ltb_spec d (DayFromYear y)).
    + replace (y - 1 + 1) with y by lia. lia.
    + lia.
Qed.

(** [YearFromTime(t)] is the largest year whose start is not after [t]. *)
Lemma YearFromTime_largest t :
  TimeFromYear (YearFromTime t) <= t
  /\ forall y, TimeFromYear y <= t -> y <= YearFromTime t.
Proof using.
  pose proof (YearFromTime_spec t) as [Hlo Hhi].
  pose proof (Z.div_mod t msPerDay ltac:(unfold msPerDay; lia)) as Hdm.
  pose proof (Z.mod_pos_bound t msPerDay ltac:(unfold msPerDay; lia)) as Hb.
  unfold TimeFromYear, Day, msPerDay in *. split; [lia|].
  intros y Hy.
  destruct (Z_lt_le_dec (YearFromTime t) y) as [Hlt|]; [|assumption].
  pose proof (DayFromYear_le (YearFromTime t + 1) y ltac:(lia)). lia.
Qed.

Lemma InLeapYear_DaysInYear t : DaysInYear (YearFromTime t) = 365 + InLeapYear t.
Proof using.
  unfold InLeapYear. destruct (DaysInYear_cases (YearFromTime t)) as [H|H]; rewrite H; reflexivity.
Qed.

Lemma InLeapYear_cases t : InLeapYear t = 0 \/ InLeapYear t = 1.
Proof using.
  unfold InLeapYear. destruct (_ =? _); auto.
Qed.

Lemma DayWithinYear_range t : 0 <= DayWithinYear t < 365 + InLeapYear t.
Proof using.
  unfold DayWithinYear. pose proof (YearFromTime_spec t) as H.
  rewrite DayFromYear_succ, InLeapYear_DaysInYear in H. lia.
Qed.

(** The year of a day is monotone in the day. *)
Lemma YearFromTime_mono t1 t2 : Day t1 <= Day t2 -> YearFromTime t1 <= YearFromTime t2.
Proof using.
  intros H. pose proof (YearFromTime_spec t1). pose proof (YearFromTime_spec t2).
  destruct (Z_lt_le_dec (YearFromTime t2) (YearFromTime t1)) as [Hlt|]; [|assumption].
  pose proof (DayFromYear_le (YearFromTime t2 + 1) (YearFromTime t1) ltac:(lia)). lia.
Qed.

Lemma YearFromTime_Day t1 t2 : Day t1 = Day t2 -> YearFromTime t1 = YearFromTime t2.
Proof using.
  intros H. unfold YearFromTime. rewrite H. reflexivity.
Qed.

(** Month and day of the month as functions of the day within the year. *)
Lemma MonthFromTime_range t : 0 <= MonthFromTime t <= 11.
Proof using.
  unfold MonthFromTime. cbv zeta.
  repeat match goal with |- context [if ?b then _ else _] => destruct b end; lia.
Qed.

Lemma DateFromTime_range t : 1 <= DateFromTime t <= 31.
Proof using.
  pose proof (DayWithinYear_range t) as Hd. pose proof (InLeapYear_cases t) as Hl.
  unfold DateFromTime, MonthFromTime. cbv zeta.
  repeat match goal with
         | |- context [if ?a <? ?b then _ else _] => destruct (Z.ltb_spec a b)
         end; lia.
Qed.

(** Within one year, a later day has a later (month, date). *)
Lemma month_date_lt t1 t2 :
  YearFromTime t1 = YearFromTime t2 ->
  DayWithinYear t1 < DayWithinYear t2 ->
  MonthFromTime t1 < MonthFromTime t2
  \/ (MonthFromTime t1 = MonthFromTime t2 /\ DateFromTime t1 < DateFromTime t2).
Proof using.
  intros Hy Hd.
  assert (Hl : InLeapYear t1 = InLeapYear t2) by (unfold InLeapYear; rewrite Hy; reflexivity).
  pose proof (DayWithinYear_range t1). pose proof (InLeapYear_cases t2).
  unfold DateFromTime, MonthFromTime. cbv zeta. rewrite Hl.
  generalize dependent (DayWithinYear t1). generalize dependent (DayWithinYear t2).
  generalize dependent (InLeapYear t2). intros l _ Hl' d2 d1 Hlt Hr.
  repeat match goal with
         | |- context [if ?a <? ?b then _ else _] => destruct (Z.ltb_spec a b)
         end; lia.
Qed.

(** *** Minutes *)

Lemma Day_of_minute t : Day t = t / msPerMinute / 1440.
Proof using.
  unfold Day, msPerDay, msPerMinute. rewrite Z.div_div by lia. reflexivity.
Qed.

Lemma Hour_of_minute t : HourFromTime t = (t / msPerMinute / 60) mod 24.
Proof using.
  unfold HourFromTime, msPerHour, msPerMinute. rewrite Z.div_div by lia. reflexivity.
Qed.

Lemma minute_decomposition t :
  t / msPerMinute = Day t * 1440 + HourFromTime t * 60 + MinFromTime t
  /\ 0 <= HourFromTime t < 24 /\ 0 <= MinFromTime t < 60.
Proof using.
  clear Num NumberToString toLocaleTimeString.
  rewrite Day_of_minute, Hour_of_minute. unfold MinFromTime.
  generalize (t / msPerMinute). intros m.
  Z.div_mod_to_equations. lia.
Qed.

(** Year, month, date, hour and minute are those of the UTC minute. *)
Lemma fields_same_minute t1 t2 :
  t1 / msPerMinute = t2 / msPerMinute ->
  YearFromTime t1 = YearFromTime t2 /\ MonthFromTime t1 = MonthFromTime t2
  /\ DateFromTime t1 = DateFromTime t2 /\ HourFromTime t1 = HourFromTime t2
  /\ MinFromTime t1 = MinFromTime t2.
Proof using.
  intros H.
  assert (Hd : Day t1 = Day t2) by (rewrite !Day_of_minute, H; reflexivity).
  assert (Hy : YearFromTime t1 = YearFromTime t2) by (apply YearFromTime_Day, Hd).
  assert (Hw : DayWithinYear t1 = DayWithinYear t2) by (unfold DayWithinYear; rewrite Hd, Hy; reflexivity).
  assert (Hl : InLeapYear t1 = InLeapYear t2) by (unfold InLeapYear; rewrite Hy; reflexivity).
  assert (Hm : MonthFromTime t1 = MonthFromTime t2) by (unfold MonthFromTime; rewrite Hw, Hl; reflexivity).
  repeat split; try assumption.
  - unfold DateFromTime. rewrite Hm, Hw, Hl. reflexivity.
  - rewrite !Hour_of_minute, H. reflexivity.
  - unfold MinFromTime. rewrite H. reflexivity.
Qed.

(** An earlier minute has lexicographically smaller fields. *)
Lemma fields_earlier_minute t1 t2 :
  t1 / msPerMinute < t2 / msPerMinute ->
  YearFromTime t1 < YearFromTime t2
  \/ (YearFromTime t1 = YearFromTime t2 /\
      (MonthFromTime t1 < MonthFromTime t2
       \/ (MonthFromTime t1 = MonthFromTime t2 /\
           (DateFromTime t1 < DateFromTime t2
            \/ (DateFromTime t1 = DateFromTime t2 /\
                (HourFromTime t1 < HourFromTime t2
                 \/ (HourFromTime t1 = HourFromTime t2 /\
                     MinFromTime t1 < MinFromTime t2))))))).
Proof using.
  intros H.
  destruct (minute_decomposition t1) as (E1 & Hh1 & Hm1).
  destruct (minute_decomposition t2) as (E2 & Hh2 & Hm2).
  assert (Hd : Day t1 <= Day t2) by lia.
  destruct (Z.eq_dec (Day t1) (Day t2)) as [Heq|Hne].
  - assert (Hy : YearFromTime t1 = YearFromTime t2) by (apply YearFromTime_Day, Heq).
    assert (Hw : DayWithinYear t1 = DayWithinYear t2) by (unfold DayWithinYear; rewrite Heq, Hy; reflexivity).
    assert (Hl : InLeapYear t1 = InLeapYear t2) by (unfold InLeapYear; rewrite Hy; reflexivity).
    assert (Hm : MonthFromTime t1 = MonthFromTime t2) by (unfold MonthFromTime; rewrite Hw, Hl; reflexivity).
    assert (Hdt : DateFromTime t1 = DateFromTime t2) by (unfold DateFromTime; rewrite Hm, Hw, Hl; reflexivity).
    right. split; [assumption|]. right. split; [assumption|]. right. split; [assumption|].
    lia.
  - pose proof (YearFromTime_mono t1 t2 Hd) as Hy.
    destruct (Z.eq_dec (YearFromTime t1) (YearFromTime t2)) as [Hyeq|Hyne]; [|left; lia].
    right. split; [assumption|].
    assert (Hw : DayWithinYear t1 < DayWithinYear t2) by (unfold DayWithinYear; rewrite Hyeq; lia).
    destruct (month_date_lt t1 t2 Hyeq Hw) as [Hm|[Hm Hdt]]; [left; assumption|].
    right. split; [assumption|]. left. assumption.
Qed.

(** Time values with a four-digit ISO year. *)
Lemma fourDigitYear_year t : fourDigitYear t -> 0 <= YearFromTime t <= 9999.
Proof using.
  clear Num NumberToString toLocaleTimeString.
  unfold fourDigitYear. intros [Hlo Hhi].
  pose proof (YearFromTime_spec t) as [H1 H2].
  assert (Hd : DayFromYear 0 <= Day t < DayFromYear 10000).
  { change (DayFromYear 0) with (-719528). change (DayFromYear 10000) with 2932897.
    unfold Day, msPerDay. Z.div_mod_to_equations. lia. }
  split.
  - destruct (Z_lt_le_dec (YearFromTime t) 0) as [Hneg|]; [|assumption].
    pose proof (DayFromYear_le (YearFromTime t + 1) 0 ltac:(lia)). lia.
  - destruct (Z_lt_le_dec 9999 (YearFromTime t)) as [Hbig|]; [|assumption].
    pose proof (DayFromYear_le 10000 (YearFromTime t) ltac:(lia)). lia.
Qed.

(** ** Strings *)

Lemma digitChar_compare a b :
  0 <= a <= 9 -> 0 <= b <= 9 ->
  Ascii.compare (digitChar a) (digitChar b) = (a ?= b).
Proof using.
  intros Ha Hb. unfold Ascii.compare, digitChar.
  rewrite !N_ascii_embedding by lia.
  rewrite <- N2Z.inj_compare, !N2Z.inj_add, !Z2N.id by lia.
  apply Z.add_compare_mono_l.
Qed.

Lemma ascii_compare_refl c : Ascii.compare c c = Eq.
Proof using. unfold Ascii.compare. apply N.compare_refl. Qed.

Lemma string_compare_refl s : String.compare s s = Eq.
Proof using.
  induction s as [|c s IH]; cbn; [reflexivity|].
  rewrite ascii_compare_refl. exact IH.
Qed.

(** Comparing two zero-padded numbers of one width compares the numbers, then
    what follows them. *)
Lemma compare_padded w : forall a b s s',
  String.compare (ToZeroPaddedDecimalString a w ++ s)
                 (ToZeroPaddedDecimalString b w ++ s')
  = match a mod 10 ^ Z.of_nat w ?= b mod 10 ^ Z.of_nat w with
    | Eq => String.compare s s'
    | c => c
    end.
Proof using.
  induction w as [|k IH]; intros a b s s'.
  - cbn [ToZeroPaddedDecimalString append]. change (10 ^ Z.of_nat 0) with 1.
    rewrite !Z.mod_1_r. reflexivity.
  - cbn [ToZeroPaddedDecimalString append String.compare].
    rewrite Nat2Z.inj_succ, Z.pow_succ_r by lia.
    set (P := 10 ^ Z.of_nat k) in *.
    assert (HP : 0 < P) by (apply Z.pow_pos_nonneg; lia).
    rewrite (Z.mul_comm 10 P), !Z.rem_mul_r by lia.
    pose proof (Z.mod_pos_bound (a / P) 10 ltac:(lia)) as Ha.
    pose proof (Z.mod_pos_bound (b / P) 10 ltac:(lia)) as Hb.
    pose proof (Z.mod_pos_bound a P HP) as Ha'.
    pose proof (Z.mod_pos_bound b P HP) as Hb'.
    rewrite digitChar_compare by lia. rewrite IH.
    fold P.
    set (da := (a / P) mod 10) in *. set (db := (b / P) mod 10) in *.
    set (ra := a mod P) in *. set (rb := b mod P) in *.
    match goal with
    | |- _ = match ?x ?= ?y with _ => _ end => destruct (Z.compare_spec x y)
    end;
    destruct (Z.compare_spec da db); try (exfalso; nia);
    try reflexivity;
    destruct (Z.compare_spec ra rb); try (exfalso; nia); reflexivity.
Qed.

Lemma compare_separator c s s' :
  String.compare (String c s) (String c s') = String.compare s s'.
Proof using. cbn. rewrite ascii_compare_refl. reflexivity. Qed.

(** [s.substring(0, n)] keeps the first [n] characters. *)
Lemma substring_firstn n : forall s,
  substring 0 n s = string_of_list_ascii (firstn n (list_ascii_of_string s)).
Proof using.
  induction n as [|n IH]; intros [|c s]; cbn; try reflexivity.
  rewrite IH. reflexivity.
Qed.

(** The bucket key of a time value with a four-digit year. *)
Lemma bucketKey_fourDigitYear t :
  0 <= YearFromTime t <= 9999 ->
  bucketKey t =
  ToZeroPaddedDecimalString (YearFromTime t) 4 ++ "-" ++
  ToZeroPaddedDecimalString (MonthFromTime t + 1) 2 ++ "-" ++
  ToZeroPaddedDecimalString (DateFromTime t) 2 ++ "T" ++
  ToZeroPaddedDecimalString (HourFromTime t) 2 ++ ":" ++
  ToZeroPaddedDecimalString (MinFromTime t) 2 ++ "0:00".
Proof using.
  intros Hy. unfold bucketKey, isoString, YearString.
  replace ((0 <=? YearFromTime t) && (YearFromTime t <=? 9999)) with true
    by (symmetry; apply andb_true_iff; split; apply Z.leb_le; lia).
  cbn [ToZeroPaddedDecimalString append list_ascii_of_string firstn string_of_list_ascii].
  reflexivity.
Qed.

(** On time values with a four-digit year, comparing bucket keys as strings
    compares the UTC minutes. *)
Lemma bucketKey_compare t1 t2 :
  fourDigitYear t1 -> fourDigitYear t2 ->
  String.compare (bucketKey t1) (bucketKey t2)
  = (t1 / msPerMinute ?= t2 / msPerMinute).
Proof using.
  intros H1 H2.
  pose proof (fourDigitYear_year t1 H1) as Hy1.
  pose proof (fourDigitYear_year t2 H2) as Hy2.
  rewrite !bucketKey_fourDigitYear by assumption.
  repeat (rewrite compare_padded; cbn [append]; rewrite ?compare_separator).
  rewrite string_compare_refl.
  change (10 ^ Z.of_nat 4) with 10000. change (10 ^ Z.of_nat 2) with 100.
  pose proof (MonthFromTime_range t1). pose proof (MonthFromTime_range t2).
  pose proof (DateFromTime_range t1). pose proof (DateFromTime_range t2).
  destruct (minute_decomposition t1) as (_ & Hh1 & Hm1).
  destruct (minute_decomposition t2) as (_ & Hh2 & Hm2).
  rewrite !Z.mod_small by lia.
  destruct (Z.compare_spec (t1 / msPerMinute) (t2 / msPerMinute)) as [E|L|G].
  - destruct (fields_same_minute t1 t2 E) as (-> & -> & -> & -> & ->).
    rewrite !Z.compare_refl. reflexivity.
  - pose proof (fields_earlier_minute t1 t2 L) as HL.
    repeat match goal with
           | |- context [?a ?= ?b] => destruct (Z.compare_spec a b)
           end; try reflexivity; exfalso; lia.
  - pose proof (fields_earlier_minute t2 t1 G) as HG.
    repeat match goal with
           | |- context [?a ?= ?b] => destruct (Z.compare_spec a b)
           end; try reflexivity; exfalso; lia.
Qed.

(** ** Bucket keys in the handlers *)

Lemma newDate_valid t : validTime t -> newDate (Some t) = Some t.
Proof.
  unfold validTime, newDate, TimeClip. intros H.
  destruct (Z.leb_spec (Z.abs t) maxTime); [reflexivity|lia].
Qed.

(** The expression [d.toISOString().substring(0, 16) + '0:00'] of the source
    is the bucket key. *)
Lemma minuteKey_bucketKey t : substring 0 16 (isoString t) ++ "0:00" = bucketKey t.
Proof. unfold bucketKey. rewrite substring_firstn. reflexivity. Qed.

Lemma bucketKey_length t : String.length (bucketKey t) = 20%nat.
Proof.
  unfold bucketKey, isoString, YearString.
  destruct ((0 <=? YearFromTime t) && (YearFromTime t <=? 9999));
    [|destruct (0 <? YearFromTime t)];
    cbn [ToZeroPaddedDecimalString append list_ascii_of_string firstn
         string_of_list_ascii String.length]; reflexivity.
Qed.

Lemma valid_between now j :
  validTime now -> validTime (now - 3600000) -> 0 <= j <= 60 ->
  validTime (now - j * 60000).
Proof. unfold validTime, maxTime. lia. Qed.

(** The loop of the source builds the slots of the specification, the last
    index first. *)
Lemma forLoop_spec now result : forall n a acc,
  (forall j, (a <= j < a + n)%nat -> validTime (now - Z.of_nat j * 60000)) ->
  forLoop (Some now) result n (Z.of_nat a) acc
  = Return (rev (map (fun k => seriesSlot now result (Z.of_nat k)) (seq a n)) ++ acc)%list.
Proof.
  induction n as [|n IH]; intros a acc Hv; [reflexivity|].
  cbn [forLoop getTime minus].
  replace (Z.of_nat a * 60 * 1000) with (Z.of_nat a * 60000) by lia.
  rewrite newDate_valid by (apply Hv; lia).
  cbn [toISOString toLocaleTimeStringOf]. rewrite minuteKey_bucketKey.
  replace (Z.of_nat a + 1) with (Z.of_nat (S a)) by lia.
  rewrite IH by (intros j Hj; apply Hv; lia).
  cbn [seq map rev]. rewrite <- app_assoc. reflexivity.
Qed.

Lemma forLoop_sixty now result :
  validTime now -> validTime (now - 3600000) ->
  forLoop (Some now) result 60 0 [] = Return (buildLast60Minutes now result).
Proof.
  intros H1 H2. change 0 with (Z.of_nat 0).
  rewrite forLoop_spec by (intros j Hj; apply valid_between; try assumption; lia).
  rewrite app_nil_r. unfold buildLast60Minutes. rewrite map_rev. reflexivity.
Qed.

Lemma pageloadHandler_first_call now uuid req :
  validTime now ->
  exists k,
    pageloadHandler now uuid req
    = Await (PageLoadModel_findOneAndUpdate (mkFilter "pageLoad" (bucketKey now))
                                            (mkUpdate 1 (Some now))) k
    /\ (forall e, k (Throw e) = Settled (Return (errorHandler e)))
    /\ exists k',
        k (Return tt)
        = Await (PageLoadDetailModel_create
                   (mkDetail "pageLoadDetail" (bucketKey now ++ "#" ++ uuid) (Some now)
                             (orDefault (headers_user_agent req) "Unknown")
                             (ip req)
                             (orDefault (headers_referer req) "Direct")
                             (body req))) k'
        /\ (forall e, k' (Throw e) = Settled (Return (errorHandler e)))
        /\ k' (Return tt) = Settled (Return (mkResponse 200 (Result true None))).
Proof.
  intros Hv. unfold pageloadHandler, pageloadTry.
  rewrite newDate_valid by assumption.
  cbn [toISOString lift bind tryCatch await]. rewrite minuteKey_bucketKey.
  eexists. split; [reflexivity|]. split; [reflexivity|].
  eexists. split; [reflexivity|]. split; reflexivity.
Qed.

Lemma pageloadsHandler_call now :
  validTime now -> validTime (now - 3600000) ->
  exists k,
    pageloadsHandler now
    = Await (PageLoadModel_find
               (mkRangeQuery "pageLoad" (bucketKey (now - 3600000)) (bucketKey now))) k
    /\ (forall e, k (Throw e) = Settled (Return (errorHandler e)))
    /\ forall result,
        k (Return result)
        = Settled (Return (mkResponse 200 (PageLoads (buildLast60Minutes now result)))).
Proof.
  intros H1 H2. unfold pageloadsHandler, pageloadsTry.
  rewrite newDate_valid by assumption. cbn [getTime minus].
  change (60 * 60 * 1000) with 3600000.
  rewrite newDate_valid by assumption.
  cbn [toISOString lift bind tryCatch await]. rewrite !minuteKey_bucketKey.
  eexists. split; [reflexivity|]. split; [reflexivity|].
  intros result. cbn [bind tryCatch lift].
  rewrite forLoop_sixty by assumption. reflexivity.
Qed.

(** C1. The bucket key of an instant is the first 16 characters of its ISO
    string followed by ["0:00"], 20 characters in all, and the key the
    page-load handler increments, the two bounds of the range query and the
    [timeKey] of each of the 60 slots are bucket keys computed this way. *)
Theorem minute_keys_are_bucket_keys (now : Z) (uuid : string) (req : Request) :
  validTime now -> validTime (now - 3600000) ->
  (forall t, validTime t ->
     exists iso, toISOString (newDate (Some t)) = Return iso
                 /\ bucketKey t = substring 0 16 iso ++ "0:00"
                 /\ String.length (bucketKey t) = 20%nat)
  /\ (exists k,
        pageloadHandler now uuid req
        = Await (PageLoadModel_findOneAndUpdate (mkFilter "pageLoad" (bucketKey now))
                                                (mkUpdate 1 (Some now))) k)
  /\ (exists k,
        pageloadsHandler now
        = Await (PageLoadModel_find
                   (mkRangeQuery "pageLoad" (bucketKey (now - 3600000)) (bucketKey now))) k
        /\ forall result, exists slots,
             k (Return result) = Settled (Return (mkResponse 200 (PageLoads slots)))
             /\ map Slot.timeKey slots
                = map (fun i => bucketKey (now - Z.of_nat i * 60000)) (rev (seq 0 60))).
Proof.
  intros H1 H2. split; [|split].
  - intros t Ht. exists (isoString t). rewrite newDate_valid by assumption.
    split; [reflexivity|]. split; [symmetry; apply minuteKey_bucketKey|apply bucketKey_length].
  - destruct (pageloadHandler_first_call now uuid req H1) as (k & Hk & _).
    exists k. exact Hk.
  - destruct (pageloadsHandler_call now H1 H2) as (k & Hk & _ & Hr).
    exists k. split; [exact Hk|]. intros result.
    exists (buildLast60Minutes now result). split; [apply Hr|].
    unfold buildLast60Minutes. rewrite map_map. reflexivity.
Qed.

(** ** Store calls *)

Lemma execOp_ok op w :
  succeeds 1 w ->
  execOp op w
  = (Return (fst (applyOp op (db w))),
     mkWorld (snd (applyOp op (db w))) (tl (faults w)) (calls w ++ [op])).
Proof.
  unfold succeeds, execOp. intros H.
  destruct (faults w) as [|[e|] later]; cbn [tl];
    try (destruct (applyOp op (db w)); reflexivity).
  cbn in H. inversion H; discriminate.
Qed.

Lemma execOp_fail op w e later :
  faults w = Some e :: later ->
  execOp op w = (Throw e, mkWorld (db w) later (calls w ++ [op])).
Proof. unfold execOp. intros ->. reflexivity. Qed.

Lemma succeeds_S n w :
  succeeds (S n) w ->
  succeeds 1 w /\ forall s c, succeeds n (mkWorld s (tl (faults w)) c).
Proof.
  unfold succeeds. destruct (faults w) as [|f later]; cbn [firstn tl faults].
  - intros _. split; [constructor|]. intros _ _. destruct n; constructor.
  - intros H. inversion H; subst. split; [repeat constructor|]. intros _ _. assumption.
Qed.

Lemma In_insertByTimeKey d x : forall l, In d (insertByTimeKey x l) <-> d = x \/ In d l.
Proof.
  induction l as [|y l IH]; cbn [insertByTimeKey].
  - cbn. intuition.
  - destruct (String.leb _ _); cbn [In]; [intuition|]. rewrite IH. intuition.
Qed.

Lemma In_sortByTimeKey d : forall l, In d (sortByTimeKey l) <-> In d l.
Proof.
  induction l as [|x l IH]; cbn [sortByTimeKey fold_right]; [reflexivity|].
  fold (sortByTimeKey l). rewrite In_insertByTimeKey, IH. cbn [In]. intuition.
Qed.

(** [find] returns the counters of the event type whose key lies in the
    inclusive range. *)
Lemma In_find q docs d :
  In d (find q docs) <->
  In d docs /\ PageLoad.eventType d = queryEventType q
  /\ String.leb (gte q) (PageLoad.timeKey d) = true
  /\ String.leb (PageLoad.timeKey d) (lte q) = true.
Proof.
  unfold find. rewrite In_sortByTimeKey, filter_In. unfold matchesQuery.
  rewrite !andb_true_iff, String.eqb_eq. intuition.
Qed.

Lemma nth_error_rev_seq n i :
  (i < n)%nat -> nth_error (rev (seq 0 n)) i = Some (n - 1 - i)%nat.
Proof.
  intros H. rewrite nth_error_rev; rewrite length_seq.
  - destruct (Nat.ltb_spec i n); [|lia].
    rewrite nth_error_seq. destruct (Nat.ltb_spec (n - S i) n); [|lia].
    f_equal. lia.
Qed.

(** C3. [GET /api/analytics/pageloads] asks the store for the ["pageLoad"]
    counters with [timeKey] in the inclusive range from the bucket key of one
    hour ago to the bucket key of now, and whatever list the store returns,
    responds 200 with exactly 60 slots, oldest first: the slot at position
    [p] is the slot of index [i = 59 - p], with the bucket key and display
    time of [now - i * 60s] and the count of the first returned counter with
    that key, or 0. *)
Theorem pageloads_returns_sixty_slots (now : Z) :
  validTime now -> validTime (now - 3600000) ->
  let query := mkRangeQuery "pageLoad" (bucketKey (now - 3600000)) (bucketKey now) in
  (exists k,
      pageloadsHandler now = Await (PageLoadModel_find query) k
      /\ forall result,
          k (Return result)
          = Settled (Return (mkResponse 200 (PageLoads (buildLast60Minutes now result)))))
  /\ (forall result, List.length (buildLast60Minutes now result) = 60%nat)
  /\ (forall result p, (p < 60)%nat ->
        nth_error (buildLast60Minutes now result) p
        = Some (Slot.mk
                  (bucketKey (now - (59 - Z.of_nat p) * 60000))
                  (displayTime (now - (59 - Z.of_nat p) * 60000))
                  (match List.find
                           (fun c => String.eqb (PageLoad.timeKey c)
                                       (bucketKey (now - (59 - Z.of_nat p) * 60000)))
                           result with
                   | Some c => PageLoad.count c
                   | None => 0
                   end)))
  /\ (forall docs d,
        In d (find query docs) <->
        In d docs /\ PageLoad.eventType d = "pageLoad"
        /\ String.leb (bucketKey (now - 3600000)) (PageLoad.timeKey d) = true
        /\ String.leb (PageLoad.timeKey d) (bucketKey now) = true)
  /\ (forall w, succeeds 1 w ->
        fst (run (pageloadsHandler now) w)
        = Return (mkResponse 200
                    (PageLoads (buildLast60Minutes now (find query (pageLoads (db w))))))).
Proof.
  intros H1 H2 query.
  destruct (pageloadsHandler_call now H1 H2) as (k & Hk & _ & Hr).
  split; [|split; [|split; [|split]]].
  - exists k. split; [exact Hk|exact Hr].
  - intros result. unfold buildLast60Minutes. rewrite length_map, length_rev, length_seq.
    reflexivity.
  - intros result p Hp. unfold buildLast60Minutes.
    rewrite nth_error_map, nth_error_rev_seq by assumption. cbn [option_map].
    unfold seriesSlot. cbv zeta.
    replace (Z.of_nat (60 - 1 - p)) with (59 - Z.of_nat p) by lia. reflexivity.
  - intros docs d. apply In_find.
  - intros w Hw. rewrite Hk. cbn [run]. rewrite execOp_ok by assumption.
    cbn [applyOp fst snd]. rewrite Hr. reflexivity.
Qed.

(** ** Running a handler *)

Lemma run_bind {A B} (m : Async A) (f : A -> Async B) : forall w,
  run (bind m f) w
  = match run m w with
    | (Return a, w') => run (f a) w'
    | (Throw e, w') => (Throw e, w')
    end.
Proof.
  induction m as [[a|e]|op k IH]; intros w; cbn [bind run]; try reflexivity.
  destruct (execOp op w) as [r w1]. apply IH.
Qed.

Lemma run_tryCatch {A} (m : Async A) (h : Error -> Async A) : forall w,
  run (tryCatch m h) w
  = match run m w with
    | (Return a, w') => (Return a, w')
    | (Throw e, w') => run (h e) w'
    end.
Proof.
  induction m as [[a|e]|op k IH]; intros w; cbn [tryCatch run]; try reflexivity.
  destruct (execOp op w) as [r w1]. apply IH.
Qed.

Lemma run_await op w : run (await op) w = execOp op w.
Proof. unfold await. cbn [run]. destruct (execOp op w). reflexivity. Qed.

(** When its two store calls succeed, the page-load handler increments the
    counter, appends the detail record and responds 200. *)
Lemma run_pageloadHandler_ok now uuid req w :
  validTime now -> succeeds 2 w ->
  run (pageloadHandler now uuid req) w
  = (Return (mkResponse 200 (Result true None)),
     mkWorld
       (mkStore
          (findOneAndUpdate (mkFilter "pageLoad" (bucketKey now)) (mkUpdate 1 (Some now))
                            (pageLoads (db w)))
          (pageLoadDetails (db w)
           ++ [mkDetail "pageLoadDetail" (bucketKey now ++ "#" ++ uuid) (Some now)
                        (orDefault (headers_user_agent req) "Unknown")
                        (ip req)
                        (orDefault (headers_referer req) "Direct")
                        (body req)])
          (analyticsEvents (db w)))
       (tl (tl (faults w)))
       (calls w
        ++ [PageLoadModel_findOneAndUpdate (mkFilter "pageLoad" (bucketKey now))
                                           (mkUpdate 1 (Some now));
            PageLoadDetailModel_create
              (mkDetail "pageLoadDetail" (bucketKey now ++ "#" ++ uuid) (Some now)
                        (orDefault (headers_user_agent req) "Unknown")
                        (ip req)
                        (orDefault (headers_referer req) "Direct")
                        (body req))])).
Proof.
  intros Hv Hs.
  destruct (pageloadHandler_first_call now uuid req Hv) as (k & Hk & _ & k' & Hk' & _ & Hok).
  destruct (succeeds_S 1 w Hs) as [Hs1 Hs2].
  rewrite Hk. cbn [run]. rewrite execOp_ok by assumption.
  cbn [applyOp fst snd resultOf] in *.
  rewrite Hk'. cbn [run]. rewrite execOp_ok by apply Hs2.
  cbn [applyOp fst snd db faults calls pageLoads pageLoadDetails analyticsEvents resultOf] in *.
  rewrite Hok. cbn [run]. rewrite <- app_assoc. reflexivity.
Qed.

(** C6. A page-load request whose two store calls succeed issues exactly
    those two calls, the increment of the counter of (["pageLoad"], bucket
    key of now) and the creation of one detail record, and responds 200
    [{ success: true }].  The record has event type ["pageLoadDetail"], key
    bucket key + ["#"] + the fresh identifier, timestamp now, the raw body
    as event data, the request's IP address, and the user agent and referrer
    of the request, ["Unknown"] and ["Direct"] when the header is absent, and
    also when it is present but empty. *)
Theorem pageload_issues_two_writes (now : Z) (uuid : string) (req : Request) (w : World) :
  validTime now -> succeeds 2 w ->
  exists detail,
    run (pageloadHandler now uuid req) w
    = (Return (mkResponse 200 (Result true None)),
       mkWorld
         (mkStore
            (findOneAndUpdate (mkFilter "pageLoad" (bucketKey now)) (mkUpdate 1 (Some now))
                              (pageLoads (db w)))
            (pageLoadDetails (db w) ++ [detail])
            (analyticsEvents (db w)))
         (tl (tl (faults w)))
         (calls w
          ++ [PageLoadModel_findOneAndUpdate (mkFilter "pageLoad" (bucketKey now))
                                             (mkUpdate 1 (Some now));
              PageLoadDetailModel_create detail]))
    /\ eventType detail = "pageLoadDetail"
    /\ timeKey detail = bucketKey now ++ "#" ++ uuid
    /\ timestamp detail = Some now
    /\ eventData detail = body req
    /\ ipAddress detail = ip req
    /\ (headers_user_agent req = None -> userAgent detail = "Unknown")
    /\ (headers_referer req = None -> referrer detail = "Direct")
    /\ (forall ua, headers_user_agent req = Some ua -> ua <> "" -> userAgent detail = ua)
    /\ (forall r, headers_referer req = Some r -> r <> "" -> referrer detail = r)
    /\ (headers_user_agent req = Some "" -> userAgent detail = "Unknown")
    /\ (headers_referer req = Some "" -> referrer detail = "Direct").
Proof.
  intros Hv Hs. eexists. split; [apply run_pageloadHandler_ok; assumption|].
  cbn [eventType timeKey timestamp eventData ipAddress userAgent referrer].
  repeat split.
  - intros ->. reflexivity.
  - intros ->. reflexivity.
  - intros ua -> Hne. cbn [orDefault]. destruct (String.eqb_spec ua ""); congruence.
  - intros r -> Hne. cbn [orDefault]. destruct (String.eqb_spec r ""); congruence.
  - intros ->. reflexivity.
  - intros ->. reflexivity.
Qed.

(** ** The upsert *)

Lemma matchesFilter_applyUpdate f u d :
  matchesFilter f (applyUpdate u d) = matchesFilter f d.
Proof. reflexivity. Qed.

Lemma matchesFilter_inserted et tk c ts :
  matchesFilter (mkFilter et tk) (PageLoad.mk et tk c ts) = true.
Proof.
  unfold matchesFilter. cbn. rewrite !String.eqb_refl. reflexivity.
Qed.

(** The counters of the filter's pair after the upsert: the first is updated,
    or one is created when there was none. *)
Lemma countersFor_findOneAndUpdate et tk u docs :
  countersFor et tk (findOneAndUpdate (mkFilter et tk) u docs)
  = match countersFor et tk docs with
    | [] => [PageLoad.mk et tk (0 + inc_count u) (set_lastUpdated u)]
    | d :: rest => applyUpdate u d :: rest
    end.
Proof.
  unfold findOneAndUpdate, countersFor.
  induction docs as [|d docs IH]; cbn [updateFirst filter app].
  - rewrite matchesFilter_inserted. reflexivity.
  - destruct (matchesFilter (mkFilter et tk) d) eqn:Hd.
    + cbn [filter]. rewrite matchesFilter_applyUpdate, Hd. reflexivity.
    + destruct (updateFirst (mkFilter et tk) u docs) as [docs'|];
        cbn [filter app]; rewrite Hd; exact IH.
Qed.

(** A pair other than the filter's keeps its counters. *)
Lemma countersFor_findOneAndUpdate_other et tk f u docs :
  (filterEventType f, filterTimeKey f) <> (et, tk) ->
  countersFor et tk (findOneAndUpdate f u docs) = countersFor et tk docs.
Proof.
  intros Hne.
  assert (Hnew : forall c ts,
             matchesFilter (mkFilter et tk)
               (PageLoad.mk (filterEventType f) (filterTimeKey f) c ts) = false).
  { intros c ts. unfold matchesFilter. cbn.
    destruct (String.eqb_spec (filterEventType f) et);
      destruct (String.eqb_spec (filterTimeKey f) tk); try reflexivity.
    subst. congruence. }
  unfold findOneAndUpdate, countersFor.
  induction docs as [|d docs IH]; cbn [updateFirst filter app].
  - rewrite Hnew. reflexivity.
  - destruct (matchesFilter f d) eqn:Hd.
    + cbn [filter]. rewrite matchesFilter_applyUpdate.
      replace (matchesFilter (mkFilter et tk) d) with false; [reflexivity|].
      symmetry. unfold matchesFilter in *. cbn [filterEventType filterTimeKey] in *.
      apply andb_true_iff in Hd. destruct Hd as [H1 H2].
      apply String.eqb_eq in H1, H2.
      destruct (String.eqb_spec (PageLoad.eventType d) et);
        destruct (String.eqb_spec (PageLoad.timeKey d) tk); try reflexivity.
      exfalso. apply Hne. congruence.
    + destruct (updateFirst f u docs) as [docs'|]; cbn [filter app];
        destruct (matchesFilter (mkFilter et tk) d); rewrite IH; reflexivity.
Qed.

Lemma bucketCount_countersFor et tk docs :
  bucketCount et tk docs
  = match countersFor et tk docs with
    | [] => 0
    | d :: _ => PageLoad.count d
    end.
Proof.
  unfold bucketCount, countersFor.
  induction docs as [|d docs IH]; cbn [List.find filter]; [reflexivity|].
  destruct (matchesFilter (mkFilter et tk) d); [reflexivity|exact IH].
Qed.

Lemma bucketCount_findOneAndUpdate et tk u docs :
  bucketCount et tk (findOneAndUpdate (mkFilter et tk) u docs)
  = bucketCount et tk docs + inc_count u.
Proof.
  rewrite !bucketCount_countersFor, countersFor_findOneAndUpdate.
  destruct (countersFor et tk docs); reflexivity.
Qed.

(** ** Failures *)

Lemma run_pageloadHandler_append_fails now uuid req w e later :
  validTime now ->
  faults w = None :: Some e :: later ->
  exists w',
    run (pageloadHandler now uuid req) w
    = (Return (mkResponse 500 (Result false (Some (message e)))), w').
Proof.
  intros Hv Hf.
  destruct (pageloadHandler_first_call now uuid req Hv) as (k & Hk & _ & k' & Hk' & Hthrow & _).
  assert (Hs1 : succeeds 1 w) by (unfold succeeds; rewrite Hf; repeat constructor).
  eexists.
  rewrite Hk. cbn [run]. rewrite execOp_ok by assumption.
  cbn [applyOp fst snd resultOf] in *. rewrite Hf. cbn [tl].
  rewrite Hk'. cbn [run].
  erewrite execOp_fail by reflexivity. rewrite Hthrow. reflexivity.
Qed.

(** C8. When the increment succeeds and the creation of the detail record
    then fails with [e], the handler responds 500 with [e]'s message once;
    the counter keeps the increment (its count is one more than before), no
    detail record is added, and no store call follows the failed one. *)
Theorem pageload_append_failure_keeps_increment
    (now : Z) (uuid : string) (req : Request) (w : World) (e : Error)
    (later : list (option Error)) :
  validTime now ->
  faults w = None :: Some e :: later ->
  exists w' detail,
    run (pageloadHandler now uuid req) w
    = (Return (mkResponse 500 (Result false (Some (message e)))), w')
    /\ pageLoads (db w')
       = findOneAndUpdate (mkFilter "pageLoad" (bucketKey now)) (mkUpdate 1 (Some now))
                          (pageLoads (db w))
    /\ bucketCount "pageLoad" (bucketKey now) (pageLoads (db w'))
       = bucketCount "pageLoad" (bucketKey now) (pageLoads (db w)) + 1
    /\ pageLoadDetails (db w') = pageLoadDetails (db w)
    /\ analyticsEvents (db w') = analyticsEvents (db w)
    /\ calls w'
       = (calls w
          ++ [PageLoadModel_findOneAndUpdate (mkFilter "pageLoad" (bucketKey now))
                                             (mkUpdate 1 (Some now));
              PageLoadDetailModel_create detail])%list.
Proof.
  intros Hv Hf.
  destruct (pageloadHandler_first_call now uuid req Hv) as (k & Hk & _ & k' & Hk' & Hthrow & _).
  assert (Hs1 : succeeds 1 w) by (unfold succeeds; rewrite Hf; repeat constructor).
  eexists. eexists.
  rewrite Hk. cbn [run]. rewrite execOp_ok by assumption.
  cbn [applyOp fst snd resultOf] in *. rewrite Hf. cbn [tl].
  rewrite Hk'. cbn [run].
  erewrite execOp_fail by reflexivity. rewrite Hthrow. cbn [run db calls].
  split; [reflexivity|].
  cbn [pageLoads pageLoadDetails analyticsEvents db calls].
  rewrite bucketCount_findOneAndUpdate, <- app_assoc. cbn [inc_count].
  repeat split; reflexivity.
Qed.

(** ** Generic events *)

Lemma eventHandler_call now uuid req name :
  validTime now -> body req <> JUndefined -> body req <> JNull ->
  ToString (getProperty (body req) "event") = Return name ->
  exists k,
    eventHandler now uuid req
    = Await (AnalyticsEventModel_create
               (mkDetail ("event_" ++ name)
                         (isoString now ++ "#" ++ uuid) (Some now)
                         (orDefault (headers_user_agent req) "Unknown")
                         (ip req)
                         (orDefault (headers_referer req) "Direct")
                         (getProperty (body req) "data"))) k
    /\ (forall e, k (Throw e) = Settled (Return (errorHandler e)))
    /\ k (Return tt) = Settled (Return (mkResponse 200 (Result true None))).
Proof.
  intros Hv Hu Hn Hname. unfold eventHandler, eventTry.
  rewrite newDate_valid by assumption.
  destruct (body req) eqn:Hb; try congruence;
    cbn [destructureEventData lift bind fst snd]; rewrite Hname;
    cbn [toISOString lift bind tryCatch await];
    (eexists; split; [reflexivity|split; reflexivity]).
Qed.

Lemma run_eventHandler_ok now uuid req w name :
  validTime now -> body req <> JUndefined -> body req <> JNull ->
  ToString (getProperty (body req) "event") = Return name -> succeeds 1 w ->
  run (eventHandler now uuid req) w
  = (Return (mkResponse 200 (Result true None)),
     mkWorld
       (mkStore
          (pageLoads (db w))
          (pageLoadDetails (db w))
          (analyticsEvents (db w)
           ++ [mkDetail ("event_" ++ name)
                        (isoString now ++ "#" ++ uuid) (Some now)
                        (orDefault (headers_user_agent req) "Unknown")
                        (ip req)
                        (orDefault (headers_referer req) "Direct")
                        (getProperty (body req) "data")]))
       (tl (faults w))
       (calls w
        ++ [AnalyticsEventModel_create
              (mkDetail ("event_" ++ name)
                        (isoString now ++ "#" ++ uuid) (Some now)
                        (orDefault (headers_user_agent req) "Unknown")
                        (ip req)
                        (orDefault (headers_referer req) "Direct")
                        (getProperty (body req) "data"))])).
Proof.
  intros Hv Hu Hn Hname Hs.
  destruct (eventHandler_call now uuid req name Hv Hu Hn Hname) as (k & Hk & _ & Hok).
  rewrite Hk. cbn [run]. rewrite execOp_ok by assumption.
  cbn [applyOp fst snd resultOf] in *. rewrite Hok. reflexivity.
Qed.

(** An event name that cannot be converted to a string stops the handler
    before any store call. *)
Lemma run_eventHandler_name_throws now uuid req w e :
  body req <> JUndefined -> body req <> JNull ->
  ToString (getProperty (body req) "event") = Throw e ->
  run (eventHandler now uuid req) w
  = (Return (mkResponse 500 (Result false (Some (message e)))), w).
Proof.
  intros Hu Hn Hname. unfold eventHandler, eventTry.
  destruct (body req) eqn:Hb; try congruence;
    cbn [destructureEventData lift bind fst snd]; rewrite Hname;
    reflexivity.
Qed.

(** A parsed object with an own ["toString"] key has no string form, nor has
    an array that holds one; other objects print ["[object Object]"]. *)
Lemma ToString_object fields :
  ToString (JObject fields)
  = match lookupField "toString" fields with
    | Some _ => Throw notPrimitive
    | None => Return "[object Object]"
    end
  /\ (forall v, lookupField "toString" fields = Some v ->
                forall rest, ToString (JArray (JObject fields :: rest)) = Throw notPrimitive).
Proof.
  split; [reflexivity|]. intros v Hv rest. cbn [ToString]. rewrite Hv. reflexivity.
Qed.

(** C7. An event request with body [{ "event": name, "data": payload }]
    whose store call succeeds issues exactly one store call, the creation of
    a detail record with event type ["event_" + name], key ISO string of now
    + ["#"] + the fresh identifier, timestamp now and the payload as event
    data; the counters are untouched and the response is 200
    [{ success: true }]. *)
Theorem event_issues_one_append
    (now : Z) (uuid : string) (req : Request) (w : World)
    (fields : list (string * JSValue)) (name : string) (payload : JSValue) :
  validTime now ->
  body req = JObject fields ->
  lookupField "event" fields = Some (JString name) ->
  lookupField "data" fields = Some payload ->
  succeeds 1 w ->
  exists detail,
    run (eventHandler now uuid req) w
    = (Return (mkResponse 200 (Result true None)),
       mkWorld
         (mkStore (pageLoads (db w)) (pageLoadDetails (db w))
                  (analyticsEvents (db w) ++ [detail]))
         (tl (faults w))
         (calls w ++ [AnalyticsEventModel_create detail]))
    /\ eventType detail = "event_" ++ name
    /\ timeKey detail = isoString now ++ "#" ++ uuid
    /\ toISOString (newDate (Some now)) = Return (isoString now)
    /\ timestamp detail = Some now
    /\ eventData detail = payload.
Proof.
  intros Hv Hb He Hd Hs. eexists. split.
  - apply (run_eventHandler_ok now uuid req w name); try assumption;
      rewrite Hb; try discriminate.
    cbn [getProperty]. rewrite He. reflexivity.
  - cbn [eventType timeKey timestamp eventData]. rewrite Hb. cbn [getProperty].
    rewrite Hd. rewrite newDate_valid by assumption.
    repeat split; reflexivity.
Qed.

(** C10. An event request whose JSON object has no ["event"] field is not
    rejected: when the store call succeeds, a detail record with event type
    ["event_undefined"] is created and the response is 200
    [{ success: true }]. *)
Theorem event_without_name_is_recorded
    (now : Z) (uuid : string) (req : Request) (w : World)
    (fields : list (string * JSValue)) :
  validTime now ->
  body req = JObject fields ->
  lookupField "event" fields = None ->
  succeeds 1 w ->
  exists detail,
    run (eventHandler now uuid req) w
    = (Return (mkResponse 200 (Result true None)),
       mkWorld
         (mkStore (pageLoads (db w)) (pageLoadDetails (db w))
                  (analyticsEvents (db w) ++ [detail]))
         (tl (faults w))
         (calls w ++ [AnalyticsEventModel_create detail]))
    /\ eventType detail = "event_undefined".
Proof.
  intros Hv Hb He Hs. eexists. split.
  - apply (run_eventHandler_ok now uuid req w "undefined"); try assumption;
      rewrite Hb; try discriminate.
    cbn [getProperty]. rewrite He. reflexivity.
  - reflexivity.
Qed.

(** ** The request boundary *)

Lemma run_handler (block : Async Response) w :
  run (tryCatch block next) w
  = match run block w with
    | (Return r, w') => (Return r, w')
    | (Throw e, w') => (Return (errorHandler e), w')
    end.
Proof.
  rewrite run_tryCatch. destruct (run block w) as [[r|e] w']; reflexivity.
Qed.

Ltac run_block :=
  repeat first
    [ rewrite run_bind
    | rewrite run_await
    | progress cbn [lift run ret toISOString]
    | match goal with
      | |- context [execOp ?op ?w] => destruct (execOp op w) as [[?|?] ?]
      end ].

Lemma pageloadTry_returns now uuid req w r w' :
  run (pageloadTry now uuid req) w = (Return r, w') -> status r = 200.
Proof.
  unfold pageloadTry. cbv zeta. destruct (newDate (Some now)); run_block;
    intros H; inversion H; reflexivity.
Qed.

Lemma eventTry_returns now uuid req w r w' :
  run (eventTry now uuid req) w = (Return r, w') -> status r = 200.
Proof.
  unfold eventTry. cbv zeta.
  destruct (destructureEventData (body req)) as [[event data]|e0];
    [cbn [lift bind fst snd]; destruct (ToString event)|];
    destruct (newDate (Some now)); run_block;
    intros H; inversion H; reflexivity.
Qed.

Lemma pageloadsTry_returns now w r w' :
  run (pageloadsTry now) w = (Return r, w') -> status r = 200.
Proof.
  unfold pageloadsTry. cbv zeta.
  destruct (newDate (Some now)) as [t|]; cbn [getTime minus];
    [destruct (newDate (Some (t - 60 * 60 * 1000)))|]; run_block;
    try (intros H; inversion H; reflexivity).
  match goal with |- context [forLoop ?a ?b ?c ?d ?e] => destruct (forLoop a b c d e) end;
    run_block; intros H; inversion H; reflexivity.
Qed.

Lemma caughtAtBoundary_handler block w :
  (forall r w', run block w = (Return r, w') -> status r = 200) ->
  caughtAtBoundary block (tryCatch block next) w.
Proof.
  intros H. unfold caughtAtBoundary. rewrite run_handler.
  destruct (run block w) as [[r|e] w'] eqn:E; [|reflexivity].
  split; [reflexivity|]. apply (H r w'). reflexivity.
Qed.

(** C9. In each of the three handlers, an error thrown inside the [try]
    block is caught and becomes the response 500
    [{ success: false, error: <the error's message> }], and a block that
    returns responds 200: the handler itself never throws and sends no other
    response.  In particular a store call that fails with [e] (the increment,
    the append after a successful increment, the event append when the event
    name converts to a string, the range query) yields 500 with [e]'s
    message; and an event name whose conversion to a string throws yields 500
    with that error's message before any store call. *)
Theorem handler_failures_become_500 (now : Z) (uuid : string) (req : Request) (w : World) :
  caughtAtBoundary (pageloadTry now uuid req) (pageloadHandler now uuid req) w
  /\ caughtAtBoundary (eventTry now uuid req) (eventHandler now uuid req) w
  /\ caughtAtBoundary (pageloadsTry now) (pageloadsHandler now) w
  /\ (forall e later,
        validTime now -> faults w = Some e :: later ->
        fst (run (pageloadHandler now uuid req) w)
        = Return (mkResponse 500 (Result false (Some (message e)))))
  /\ (forall e later,
        validTime now -> faults w = None :: Some e :: later ->
        fst (run (pageloadHandler now uuid req) w)
        = Return (mkResponse 500 (Result false (Some (message e)))))
  /\ (forall e later name,
        validTime now -> body req <> JUndefined -> body req <> JNull ->
        ToString (getProperty (body req) "event") = Return name ->
        faults w = Some e :: later ->
        fst (run (eventHandler now uuid req) w)
        = Return (mkResponse 500 (Result false (Some (message e)))))
  /\ (forall e,
        body req <> JUndefined -> body req <> JNull ->
        ToString (getProperty (body req) "event") = Throw e ->
        run (eventHandler now uuid req) w
        = (Return (mkResponse 500 (Result false (Some (message e)))), w))
  /\ (forall e later,
        validTime now -> validTime (now - 3600000) ->
        faults w = Some e :: later ->
        fst (run (pageloadsHandler now) w)
        = Return (mkResponse 500 (Result false (Some (message e))))).
Proof.
  repeat split.
  - apply caughtAtBoundary_handler, pageloadTry_returns.
  - apply caughtAtBoundary_handler, eventTry_returns.
  - apply caughtAtBoundary_handler, pageloadsTry_returns.
  - intros e later Hv Hf.
    destruct (pageloadHandler_first_call now uuid req Hv) as (k & Hk & Hthrow & _).
    rewrite Hk. cbn [run]. erewrite execOp_fail by exact Hf. rewrite Hthrow. reflexivity.
  - intros e later Hv Hf.
    destruct (run_pageloadHandler_append_fails now uuid req w e later Hv Hf)
      as (w' & Hrun).
    rewrite Hrun. reflexivity.
  - intros e later name Hv Hu Hn Hname Hf.
    destruct (eventHandler_call now uuid req name Hv Hu Hn Hname) as (k & Hk & Hthrow & _).
    rewrite Hk. cbn [run]. erewrite execOp_fail by exact Hf. rewrite Hthrow. reflexivity.
  - intros e Hu Hn Hname. apply run_eventHandler_name_throws; assumption.
  - intros e later Hv Hv' Hf.
    destruct (pageloadsHandler_call now Hv Hv') as (k & Hk & Hthrow & _).
    rewrite Hk. cbn [run]. erewrite execOp_fail by exact Hf. rewrite Hthrow. reflexivity.
Qed.

(** ** Concurrent increments *)

Lemma pendingIncrements_cons K h rest :
  pendingIncrements K (h :: rest)
  = (pendingIncrements K [h] + pendingIncrements K rest)%nat.
Proof.
  destruct h as [o|op k]; cbn [pendingIncrements]; [reflexivity|].
  destruct (touches K op); reflexivity.
Qed.

Lemma pendingIncrements_Quiet K h : Quiet K h -> pendingIncrements K [h] = 0%nat.
Proof.
  intros [o|op k Ht _]; cbn [pendingIncrements]; [reflexivity|]. rewrite Ht. reflexivity.
Qed.

Lemma pendingIncrements_Pending K T h : Pending K T h -> pendingIncrements K [h] = 1%nat.
Proof.
  intros (ts & k & _ & -> & _). cbn. rewrite String.eqb_refl. reflexivity.
Qed.

Lemma pendingIncrements_settled K pool :
  forallb isSettled pool = true -> pendingIncrements K pool = 0%nat.
Proof.
  induction pool as [|[o|op k] rest IH]; cbn [forallb isSettled pendingIncrements andb];
    auto; discriminate.
Qed.

Lemma execOp_no_faults op w :
  faults w = [] ->
  execOp op w
  = (Return (fst (applyOp op (db w))),
     mkWorld (snd (applyOp op (db w))) [] (calls w ++ [op])).
Proof.
  intros Hf. rewrite execOp_ok by (unfold succeeds; rewrite Hf; constructor).
  rewrite Hf. reflexivity.
Qed.

(** A call that does not write the counter of [K] leaves it as it is. *)
Lemma applyOp_untouched K op s :
  touches K op = false ->
  countersFor "pageLoad" K (pageLoads (snd (applyOp op s)))
  = countersFor "pageLoad" K (pageLoads s).
Proof.
  destruct op as [f u|doc|doc|q]; cbn [touches applyOp snd pageLoads]; try reflexivity.
  intros Ht. apply countersFor_findOneAndUpdate_other. intros Heq.
  inversion Heq as [[H1 H2]]. rewrite H1, H2, !String.eqb_refl in Ht. discriminate.
Qed.

(** One increment moves the counter from [c] to [c + 1]. *)
Lemma counterStands_increment K (T : Z -> Prop) c ts docs :
  T ts ->
  counterStands K T c docs ->
  counterStands K T (S c)
    (findOneAndUpdate (mkFilter "pageLoad" K) (mkUpdate 1 (Some ts)) docs).
Proof.
  intros HT Hc. cbn [counterStands]. exists ts. split; [assumption|].
  rewrite countersFor_findOneAndUpdate.
  destruct c as [|c]; cbn [counterStands] in Hc.
  - rewrite Hc. reflexivity.
  - destruct Hc as (ts0 & _ & ->). unfold applyUpdate.
    cbn [PageLoad.eventType PageLoad.timeKey PageLoad.count inc_count set_lastUpdated].
    f_equal. f_equal. lia.
Qed.

Lemma stepHandler_balanced K T c h w h' w' :
  stepHandler h w = (h', w') ->
  faults w = [] ->
  Pending K T h \/ Quiet K h ->
  counterStands K T c (pageLoads (db w)) ->
  faults w' = []
  /\ (Pending K T h' \/ Quiet K h')
  /\ exists c', counterStands K T c' (pageLoads (db w'))
                /\ (c' + pendingIncrements K [h'] = c + pendingIncrements K [h])%nat.
Proof.
  intros Hstep Hf Hh Hc. destruct Hh as [Hp|Hq].
  - pose proof (pendingIncrements_Pending K T h Hp) as Hone.
    destruct Hp as (ts & k & HT & -> & Hk).
    cbn [stepHandler] in Hstep. rewrite execOp_no_faults in Hstep by assumption.
    inversion Hstep; subst h' w'. clear Hstep.
    split; [reflexivity|]. split; [right; apply Hk|].
    exists (S c). split.
    + cbn [db applyOp snd pageLoads]. apply counterStands_increment; assumption.
    + rewrite (pendingIncrements_Quiet K _ (Hk _)), Hone. lia.
  - destruct Hq as [o|op k Ht Hk].
    + cbn [stepHandler] in Hstep. inversion Hstep; subst h' w'.
      split; [assumption|]. split; [right; constructor|]. exists c. split; [assumption|lia].
    + cbn [stepHandler] in Hstep. rewrite execOp_no_faults in Hstep by assumption.
      inversion Hstep; subst h' w'. clear Hstep.
      split; [reflexivity|]. split; [right; apply Hk|].
      exists c. split.
      * cbn [db]. unfold counterStands in *. rewrite applyOp_untouched by assumption.
        exact Hc.
      * rewrite (pendingIncrements_Quiet K _ (Hk _)).
        rewrite (pendingIncrements_Quiet K (Await op k)) by (constructor; assumption).
        lia.
Qed.

Lemma stepAt_balanced K T : forall pool i w pool' w' N,
  stepAt i pool w = (pool', w') ->
  Balanced K T N pool w -> Balanced K T N pool' w'.
Proof.
  unfold Balanced.
  induction pool as [|h rest IH]; intros i w pool' w' N Hstep (Hf & Hall & c & Hc & Hn).
  - cbn [stepAt] in Hstep. inversion Hstep; subst pool' w'.
    split; [assumption|]. split; [constructor|]. exists c. split; assumption.
  - apply Forall_cons_iff in Hall. destruct Hall as [Hh Hrest].
    rewrite pendingIncrements_cons in Hn.
    destruct i as [|j]; cbn [stepAt] in Hstep.
    + destruct (stepHandler h w) as [h1 w1] eqn:Hs. inversion Hstep; subst pool' w'.
      destruct (stepHandler_balanced K T c h w h1 w1 Hs Hf Hh Hc) as (Hf1 & Hh1 & c1 & Hc1 & Hn1).
      split; [assumption|]. split; [constructor; assumption|].
      exists c1. split; [assumption|]. rewrite pendingIncrements_cons. lia.
    + destruct (stepAt j rest w) as [rest1 w1] eqn:Hs. inversion Hstep; subst pool' w'.
      destruct (IH j w rest1 w1 (c + pendingIncrements K rest)%nat Hs)
        as (Hf1 & Hall1 & c1 & Hc1 & Hn1).
      { split; [assumption|]. split; [assumption|].
        exists c. split; [assumption|reflexivity]. }
      split; [assumption|]. split; [constructor; assumption|].
      exists c1. split; [assumption|]. rewrite pendingIncrements_cons. lia.
Qed.

Lemma interleave_balanced K T N : forall schedule pool w pool' w',
  interleave schedule pool w = (pool', w') ->
  Balanced K T N pool w -> Balanced K T N pool' w'.
Proof.
  induction schedule as [|i later IH]; intros pool w pool' w' Hrun Hb; cbn [interleave] in Hrun.
  - inversion Hrun; subst. assumption.
  - destruct (stepAt i pool w) as [pool1 w1] eqn:Hs.
    apply (IH pool1 w1 pool' w' Hrun). apply (stepAt_balanced K T pool i w); assumption.
Qed.

Lemma newDate_cases t :
  (validTime t /\ newDate (Some t) = Some t) \/ (~ validTime t /\ newDate (Some t) = None).
Proof.
  unfold validTime, newDate, TimeClip.
  destruct (Z.leb_spec (Z.abs t) maxTime); [left|right]; split; auto; lia.
Qed.

Ltac quiet :=
  repeat first
    [ apply Quiet_settled
    | apply Quiet_await; [try reflexivity|intros [?|?]]
    | progress cbn [bind tryCatch lift await ret next toISOString
                    destructureEventData fst snd]
    | match goal with
      | |- context [forLoop ?a ?b ?c ?d ?e] => destruct (forLoop a b c d e)
      end ].

(** A request that is no page load of bucket [K] never writes its counter. *)
Lemma handle_quiet K r : incrementsKey K r = false -> Quiet K (handle r).
Proof.
  destruct r as [now uuid req|now uuid req|now]; cbn [incrementsKey handle].
  - intros Hk. destruct (newDate_cases now) as [[Hv Hd]|[Hv Hd]].
    + destruct (pageloadHandler_first_call now uuid req Hv)
        as (k & Hh & Hthrow & k' & Hk' & Hthrow' & Hok).
      rewrite Hh. apply Quiet_await.
      * cbn [touches filterEventType filterTimeKey].
        unfold validTime in Hv. apply Z.leb_le in Hv. rewrite Hv in Hk.
        cbn [andb] in Hk. rewrite Hk. reflexivity.
      * cbn [resultOf] in *. intros [[]|e]; [|rewrite Hthrow; constructor].
        rewrite Hk'. apply Quiet_await; [reflexivity|].
        cbn [resultOf] in *. intros [[]|e]; [rewrite Hok|rewrite Hthrow']; constructor.
    + unfold pageloadHandler, pageloadTry. rewrite Hd. quiet.
  - intros _. unfold eventHandler, eventTry.
    destruct (destructureEventData (body req)) as [[event data]|e0];
      [cbn [lift bind fst snd]; destruct (ToString event)|];
      destruct (newDate (Some now)); quiet.
  - intros _. unfold pageloadsHandler, pageloadsTry.
    destruct (newDate (Some now)) as [t|]; cbn [getTime minus];
      [destruct (newDate (Some (t - 60 * 60 * 1000)))|]; quiet.
Qed.

(** A page load of bucket [K] is suspended at its increment. *)
Lemma handle_pending K (T : Z -> Prop) now uuid req :
  T now ->
  incrementsKey K (PostPageload now uuid req) = true ->
  Pending K T (pageloadHandler now uuid req).
Proof.
  cbn [incrementsKey]. intros HT Hk. apply andb_true_iff in Hk. destruct Hk as [Hv Hk].
  apply Z.leb_le in Hv. apply String.eqb_eq in Hk.
  destruct (pageloadHandler_first_call now uuid req Hv)
    as (k & Hh & Hthrow & k' & Hk' & Hthrow' & Hok).
  exists now, k. split; [assumption|]. rewrite <- Hk. split; [exact Hh|].
  cbn [resultOf] in *. intros [[]|e]; [|rewrite Hthrow; constructor].
  rewrite Hk'. apply Quiet_await; [reflexivity|].
  cbn [resultOf] in *. intros [[]|e]; [rewrite Hok|rewrite Hthrow']; constructor.
Qed.

Lemma handle_staged K (T : Z -> Prop) r :
  (forall now uuid req, r = PostPageload now uuid req ->
                        incrementsKey K r = true -> T now) ->
  (Pending K T (handle r) \/ Quiet K (handle r))
  /\ pendingIncrements K [handle r] = if incrementsKey K r then 1%nat else 0%nat.
Proof.
  intros HT. destruct (incrementsKey K r) eqn:Hk.
  - destruct r as [now uuid req|now uuid req|now]; try discriminate.
    assert (Hp : Pending K T (pageloadHandler now uuid req))
      by (apply handle_pending; [apply (HT now uuid req); reflexivity|assumption]).
    split; [left; exact Hp|]. apply (pendingIncrements_Pending K T). exact Hp.
  - pose proof (handle_quiet K r Hk) as Hq.
    split; [right; exact Hq|]. apply pendingIncrements_Quiet. exact Hq.
Qed.

(** The pool of freshly received requests is balanced at their number of
    page loads of bucket [K]. *)
Lemma initial_balanced K reqs w :
  faults w = [] ->
  countersFor "pageLoad" K (pageLoads (db w)) = [] ->
  Balanced K (stamps K reqs) (List.length (filter (incrementsKey K) reqs))
           (map handle reqs) w.
Proof.
  intros Hf Hc. split; [assumption|].
  assert (Hall : forall l, incl l reqs ->
            Forall (fun h => Pending K (stamps K reqs) h \/ Quiet K h) (map handle l)
            /\ pendingIncrements K (map handle l)
               = List.length (filter (incrementsKey K) l)).
  { induction l as [|r l IH]; intros Hincl.
    - split; [constructor|reflexivity].
    - destruct IH as [IH1 IH2]; [intros x Hx; apply Hincl; right; exact Hx|].
      destruct (handle_staged K (stamps K reqs) r) as [Hs Hp].
      { intros now uuid req -> Hk. exists uuid, req. split; [|exact Hk].
        apply Hincl. left. reflexivity. }
      cbn [map filter]. split; [constructor; assumption|].
      rewrite pendingIncrements_cons, Hp, IH2.
      destruct (incrementsKey K r); reflexivity. }
  destruct (Hall reqs (incl_refl reqs)) as [H1 H2].
  split; [exact H1|]. exists 0%nat. split; [exact Hc|]. rewrite H2. reflexivity.
Qed.

(** Every pool can be run until all its handlers have settled. *)
Lemma settle_head {A} (h : Async A) : forall rest w,
  exists n o w',
    interleave (repeat 0%nat n) (h :: rest) w = (Settled o :: rest, w').
Proof.
  induction h as [o|op k IH]; intros rest w.
  - exists 0%nat, o, w. reflexivity.
  - destruct (execOp op w) as [r w1] eqn:He.
    destruct (IH r rest w1) as (n & o & w' & Hn).
    exists (S n), o, w'. cbn [repeat interleave stepAt stepHandler]. rewrite He. exact Hn.
Qed.

Lemma interleave_app {A} s1 s2 : forall (pool : list (Async A)) w,
  interleave (s1 ++ s2) pool w
  = let (pool', w') := interleave s1 pool w in interleave s2 pool' w'.
Proof.
  induction s1 as [|i s1 IH]; intros pool w; cbn [app interleave]; [reflexivity|].
  destruct (stepAt i pool w) as [pool1 w1]. apply IH.
Qed.

Lemma interleave_shift {A} s (h : Async A) : forall rest w,
  interleave (map S s) (h :: rest) w
  = let (rest', w') := interleave s rest w in (h :: rest', w').
Proof.
  induction s as [|i s IH]; intros rest w; cbn [map interleave stepAt]; [reflexivity|].
  destruct (stepAt i rest w) as [rest1 w1]. apply IH.
Qed.

Lemma can_settle {A} : forall (pool : list (Async A)) w,
  exists schedule, forallb isSettled (fst (interleave schedule pool w)) = true.
Proof.
  induction pool as [|h rest IH]; intros w.
  - exists []. reflexivity.
  - destruct (settle_head h rest w) as (n & o & w1 & Hn).
    destruct (IH w1) as (s & Hs).
    exists (repeat 0%nat n ++ map S s)%list.
    rewrite interleave_app, Hn, interleave_shift.
    destruct (interleave s rest w1) as [rest' w']. cbn [fst] in *.
    cbn [forallb isSettled andb]. exact Hs.
Qed.

(** C4. Let [N >= 1] of the requests in flight be page loads of bucket [K],
    in a store that has no counter for (["pageLoad"], [K]) and that fails no
    call, each store call being atomic.  The first increment creates the
    counter with count 1 and each later one adds 1 and stamps it.  However
    the handlers interleave at their [await]s, once all have settled there is
    exactly one counter for the pair, its count is [N], and it was last
    updated at the time of one of those page loads; and the handlers can
    always be run until all have settled. *)
Theorem concurrent_increments_are_counted
    (K : string) (reqs : list Incoming) (w0 : World) :
  faults w0 = [] ->
  countersFor "pageLoad" K (pageLoads (db w0)) = [] ->
  (1 <= List.length (filter (incrementsKey K) reqs))%nat ->
  (forall docs ts,
      countersFor "pageLoad" K docs = [] ->
      countersFor "pageLoad" K
        (findOneAndUpdate (mkFilter "pageLoad" K) (mkUpdate 1 ts) docs)
      = [PageLoad.mk "pageLoad" K 1 ts])
  /\ (forall docs c ts0 ts,
        countersFor "pageLoad" K docs = [PageLoad.mk "pageLoad" K c ts0] ->
        countersFor "pageLoad" K
          (findOneAndUpdate (mkFilter "pageLoad" K) (mkUpdate 1 ts) docs)
        = [PageLoad.mk "pageLoad" K (c + 1) ts])
  /\ (exists schedule,
        forallb isSettled (fst (interleave schedule (map handle reqs) w0)) = true)
  /\ (forall schedule pool' w',
        interleave schedule (map handle reqs) w0 = (pool', w') ->
        forallb isSettled pool' = true ->
        exists now uuid req,
          In (PostPageload now uuid req) reqs
          /\ validTime now /\ bucketKey now = K
          /\ countersFor "pageLoad" K (pageLoads (db w'))
             = [PageLoad.mk "pageLoad" K
                            (Z.of_nat (List.length (filter (incrementsKey K) reqs)))
                            (Some now)]).
Proof.
  intros Hf Hc HN. split; [|split; [|split]].
  - intros docs ts Hd. rewrite countersFor_findOneAndUpdate, Hd. reflexivity.
  - intros docs c ts0 ts Hd. rewrite countersFor_findOneAndUpdate, Hd. reflexivity.
  - apply can_settle.
  - intros schedule pool' w' Hrun Hdone.
    pose proof (interleave_balanced K (stamps K reqs) _ schedule _ _ _ _ Hrun
                  (initial_balanced K reqs w0 Hf Hc)) as (_ & _ & c & Hst & Hsum).
    rewrite (pendingIncrements_settled K pool' Hdone), Nat.add_0_r in Hsum.
    rewrite <- Hsum in *. destruct c as [|c]; [lia|].
    cbn [counterStands] in Hst. destruct Hst as (ts & (uuid & req & Hin & Hk) & Hcount).
    exists ts, uuid, req. split; [exact Hin|].
    cbn [incrementsKey] in Hk. apply andb_true_iff in Hk. destruct Hk as [Hv Hk].
    split; [apply Z.leb_le; exact Hv|]. split; [apply String.eqb_eq; exact Hk|exact Hcount].
Qed.

(** ** Granularity and order of bucket keys *)

Lemma same_minute_same_prefix t1 t2 :
  t1 / msPerMinute = t2 / msPerMinute ->
  substring 0 16 (isoString t1) = substring 0 16 (isoString t2).
Proof using.
  intros H. destruct (fields_same_minute t1 t2 H) as (Hy & Hm & Hd & Hh & Hmi).
  unfold isoString, YearString. rewrite Hy, Hm, Hd, Hh, Hmi.
  destruct ((0 <=? YearFromTime t2) && (YearFromTime t2 <=? 9999));
    [|destruct (0 <? YearFromTime t2)];
    cbn [ToZeroPaddedDecimalString append substring]; reflexivity.
Qed.

(** C2 (amended). Two instants whose ISO strings agree on their first 16
    characters have the same bucket key; instants of one UTC minute agree
    there; and for instants with a four-digit year the keys are equal exactly
    when the instants lie in the same UTC minute.  The granularity of the
    keys is one minute: a ten-minute window is not collapsed. *)
Theorem bucketKey_minute_granularity (t1 t2 : Z) :
  (substring 0 16 (isoString t1) = substring 0 16 (isoString t2) ->
   bucketKey t1 = bucketKey t2)
  /\ (t1 / 60000 = t2 / 60000 ->
      substring 0 16 (isoString t1) = substring 0 16 (isoString t2))
  /\ (fourDigitYear t1 -> fourDigitYear t2 ->
      (bucketKey t1 = bucketKey t2 <-> t1 / 60000 = t2 / 60000)).
Proof using.
  assert (Hprefix : substring 0 16 (isoString t1) = substring 0 16 (isoString t2) ->
                    bucketKey t1 = bucketKey t2).
  { intros H. rewrite <- !minuteKey_bucketKey, H. reflexivity. }
  split; [exact Hprefix|]. split; [apply same_minute_same_prefix|].
  intros H1 H2. split.
  - intros Hk. pose proof (bucketKey_compare t1 t2 H1 H2) as Hc.
    rewrite Hk, string_compare_refl in Hc. symmetry in Hc.
    apply Z.compare_eq in Hc. exact Hc.
  - intros Hm. apply Hprefix, same_minute_same_prefix. exact Hm.
Qed.

(** C5 (amended). On instants with a four-digit ISO year (0000 to 9999) the
    bucket key is monotone, [t1 < t2] gives [bucketKey t1 <= bucketKey t2] in
    code unit order, and comparing two keys as strings is comparing the UTC
    minutes of their instants. *)
Theorem bucketKey_monotone_four_digit_years (t1 t2 : Z) :
  fourDigitYear t1 -> fourDigitYear t2 ->
  (t1 < t2 -> String.leb (bucketKey t1) (bucketKey t2) = true)
  /\ String.compare (bucketKey t1) (bucketKey t2) = (t1 / 60000 ?= t2 / 60000).
Proof using.
  intros H1 H2. pose proof (bucketKey_compare t1 t2 H1 H2) as Hc.
  split; [|exact Hc].
  intros Hlt. unfold String.leb. rewrite Hc.
  assert (Hle : t1 / msPerMinute <= t2 / msPerMinute)
    by (apply Z.div_le_mono; unfold msPerMinute; lia).
  destruct (Z.compare_spec (t1 / msPerMinute) (t2 / msPerMinute)); try reflexivity; lia.
Qed.

(** * Further properties *)

(** ** The unique index *)

Lemma updateFirst_keys f u : forall docs docs',
  updateFirst f u docs = Some docs' ->
  map (fun d => (PageLoad.eventType d, PageLoad.timeKey d)) docs'
  = map (fun d => (PageLoad.eventType d, PageLoad.timeKey d)) docs.
Proof using.
  induction docs as [|d docs IH]; intros docs' H; cbn [updateFirst] in H; [discriminate|].
  destruct (matchesFilter f d).
  - inversion H; subst. reflexivity.
  - destruct (updateFirst f u docs) as [rest|]; [|discriminate].
    inversion H; subst. cbn [map]. rewrite (IH rest eq_refl). reflexivity.
Qed.

Lemma updateFirst_none f u : forall docs,
  updateFirst f u docs = None ->
  ~ In (filterEventType f, filterTimeKey f)
       (map (fun d => (PageLoad.eventType d, PageLoad.timeKey d)) docs).
Proof using.
  induction docs as [|d docs IH]; intros H; cbn [updateFirst] in H; [intros []|].
  destruct (matchesFilter f d) eqn:Hd; [discriminate|].
  destruct (updateFirst f u docs) as [rest|]; [discriminate|].
  cbn [map In]. intros [Heq|Hin]; [|exact (IH eq_refl Hin)].
  inversion Heq as [[H1 H2]]. unfold matchesFilter in Hd.
  rewrite H1, H2, !String.eqb_refl in Hd. discriminate.
Qed.

Lemma uniquePairs_findOneAndUpdate f u docs :
  uniquePairs docs -> uniquePairs (findOneAndUpdate f u docs).
Proof using.
  unfold uniquePairs, findOneAndUpdate. intros H.
  destruct (updateFirst f u docs) as [docs'|] eqn:E.
  - rewrite (updateFirst_keys f u docs docs' E). exact H.
  - rewrite map_app. cbn [map PageLoad.eventType PageLoad.timeKey].
    apply NoDup_app; [exact H|repeat constructor; intros []|].
    intros x Hx [Heq|[]]. subst x. exact (updateFirst_none f u docs E Hx).
Qed.

Lemma uniquePairs_applyOp op s :
  uniquePairs (pageLoads s) -> uniquePairs (pageLoads (snd (applyOp op s))).
Proof.
  destruct op; cbn [applyOp snd pageLoads]; auto using uniquePairs_findOneAndUpdate.
Qed.

Lemma uniquePairs_execOp op w :
  uniquePairs (pageLoads (db w)) -> uniquePairs (pageLoads (db (snd (execOp op w)))).
Proof.
  intros H. unfold execOp.
  destruct (faults w) as [|[e|] later];
    try (pose proof (uniquePairs_applyOp op (db w) H);
         destruct (applyOp op (db w)); cbn [snd db] in *; assumption).
Qed.

Lemma uniquePairs_stepAt {A} : forall (pool : list (Async A)) i w,
  uniquePairs (pageLoads (db w)) ->
  uniquePairs (pageLoads (db (snd (stepAt i pool w)))).
Proof.
  induction pool as [|h rest IH]; intros i w H; cbn [stepAt]; [exact H|].
  destruct i as [|j].
  - destruct h as [o|op k]; cbn [stepHandler]; [exact H|].
    pose proof (uniquePairs_execOp op w H). destruct (execOp op w). exact H0.
  - pose proof (IH j w H). destruct (stepAt j rest w). exact H0.
Qed.

(** X1. Whatever handlers run and however they interleave, and whichever
    store calls fail, the counters keep the unique index: no two of them
    ever share a pair (eventType, timeKey). *)
Theorem unique_pairs_are_kept {A} (schedule : list nat) :
  forall (pool : list (Async A)) (w : World),
    uniquePairs (pageLoads (db w)) ->
    uniquePairs (pageLoads (db (snd (interleave schedule pool w)))).
Proof.
  induction schedule as [|i later IH]; intros pool w H; cbn [interleave]; [exact H|].
  pose proof (uniquePairs_stepAt pool i w H) as H1.
  destruct (stepAt i pool w) as [pool1 w1]. apply IH. exact H1.
Qed.

(** ** The order of a query result *)

Lemma HdRel_insertByTimeKey d x l :
  String.leb (PageLoad.timeKey x) (PageLoad.timeKey d) = true ->
  HdRel (fun a b => String.leb (PageLoad.timeKey a) (PageLoad.timeKey b) = true) x l ->
  HdRel (fun a b => String.leb (PageLoad.timeKey a) (PageLoad.timeKey b) = true) x
        (insertByTimeKey d l).
Proof using.
  intros Hxd Hl. destruct l as [|y l]; cbn [insertByTimeKey]; [constructor; exact Hxd|].
  destruct (String.leb (PageLoad.timeKey d) (PageLoad.timeKey y)); constructor;
    [exact Hxd|]. inversion Hl; assumption.
Qed.

Lemma ascending_insertByTimeKey d : forall l,
  ascendingByTimeKey l -> ascendingByTimeKey (insertByTimeKey d l).
Proof using.
  unfold ascendingByTimeKey.
  induction l as [|y l IH]; intros H; cbn [insertByTimeKey]; [repeat constructor|].
  destruct (String.leb (PageLoad.timeKey d) (PageLoad.timeKey y)) eqn:E.
  - constructor; [exact H|constructor; exact E].
  - inversion H as [|? ? Hs Hh]; subst. constructor; [apply IH; exact Hs|].
    apply HdRel_insertByTimeKey; [|exact Hh].
    destruct (String.leb_total (PageLoad.timeKey d) (PageLoad.timeKey y)); congruence.
Qed.

(** The counters a range query returns are in ascending [timeKey] order. *)
Lemma find_is_ascending (q : RangeQuery) (docs : list PageLoad.t) :
  ascendingByTimeKey (find q docs).
Proof using.
  unfold find, sortByTimeKey.
  induction (filter (matchesQuery q) docs) as [|d l IH]; cbn [fold_right].
  - constructor.
  - apply ascending_insertByTimeKey. exact IH.
Qed.

(** ** What a single request writes *)

Lemma execOp_shape op w :
  (exists e later,
      faults w = Some e :: later
      /\ execOp op w = (Throw e, mkWorld (db w) later (calls w ++ [op])))
  \/ (succeeds 1 w
      /\ execOp op w
         = (Return (fst (applyOp op (db w))),
            mkWorld (snd (applyOp op (db w))) (tl (faults w)) (calls w ++ [op]))).
Proof.
  destruct (faults w) as [|[e|] later] eqn:Hf.
  - right. assert (Hs : succeeds 1 w) by (unfold succeeds; rewrite Hf; constructor).
    split; [exact Hs|]. rewrite execOp_ok by exact Hs. rewrite Hf. reflexivity.
  - left. exists e, later. split; [reflexivity|]. apply execOp_fail. exact Hf.
  - right. assert (Hs : succeeds 1 w) by (unfold succeeds; rewrite Hf; repeat constructor).
    split; [exact Hs|]. rewrite execOp_ok by exact Hs. rewrite Hf. reflexivity.
Qed.

(** The three ways a page load can end: nothing written, the increment
    alone, or both writes. *)
Lemma run_pageloadHandler_store now uuid req w :
  (db (snd (run (pageloadHandler now uuid req) w)) = db w
   /\ exists e, fst (run (pageloadHandler now uuid req) w) = Return (errorHandler e))
  \/ (validTime now
      /\ db (snd (run (pageloadHandler now uuid req) w))
         = mkStore
             (findOneAndUpdate (mkFilter "pageLoad" (bucketKey now))
                               (mkUpdate 1 (Some now)) (pageLoads (db w)))
             (pageLoadDetails (db w)) (analyticsEvents (db w))
      /\ exists e, fst (run (pageloadHandler now uuid req) w) = Return (errorHandler e))
  \/ (validTime now
      /\ db (snd (run (pageloadHandler now uuid req) w))
         = mkStore
             (findOneAndUpdate (mkFilter "pageLoad" (bucketKey now))
                               (mkUpdate 1 (Some now)) (pageLoads (db w)))
             (pageLoadDetails (db w)
              ++ [mkDetail "pageLoadDetail" (bucketKey now ++ "#" ++ uuid) (Some now)
                           (orDefault (headers_user_agent req) "Unknown")
                           (ip req)
                           (orDefault (headers_referer req) "Direct")
                           (body req)])
             (analyticsEvents (db w))
      /\ fst (run (pageloadHandler now uuid req) w)
         = Return (mkResponse 200 (Result true None))).
Proof.
  destruct (newDate_cases now) as [[Hv Hd]|[Hv Hd]].
  - destruct (pageloadHandler_first_call now uuid req Hv)
      as (k & Hh & Hthrow & k' & Hk' & Hthrow' & Hok).
    rewrite Hh. cbn [run].
    destruct (execOp_shape
                (PageLoadModel_findOneAndUpdate (mkFilter "pageLoad" (bucketKey now))
                                                (mkUpdate 1 (Some now))) w)
      as [(e & later & Hf & He)|[Hs He]]; rewrite He; clear He.
    + left. rewrite Hthrow. cbn [run fst snd db]. eauto.
    + cbn [applyOp fst snd resultOf] in *. rewrite Hk'. cbn [run].
      match goal with
      | |- context [execOp ?op ?w1] =>
          destruct (execOp_shape op w1) as [(e & later & Hf & He)|[Hs' He]];
          rewrite He; clear He
      end.
      * right. left. rewrite Hthrow'. cbn [run fst snd db]. eauto.
      * right. right. cbn [applyOp fst snd resultOf db pageLoads pageLoadDetails
                             analyticsEvents] in *.
        rewrite Hok. cbn [run fst snd db]. auto.
  - left. unfold pageloadHandler, pageloadTry. rewrite Hd.
    cbn [toISOString lift bind tryCatch next ret run fst snd]. eauto.
Qed.

(** X2. A page load changes the counter of its own bucket at most: in every
    world, whatever fails, the counters of every other pair (eventType,
    timeKey) and the event records are what they were. *)
Theorem pageload_touches_one_bucket
    (now : Z) (uuid : string) (req : Request) (w : World) (et tk : string) :
  (et, tk) <> ("pageLoad", bucketKey now) ->
  countersFor et tk (pageLoads (db (snd (run (pageloadHandler now uuid req) w))))
  = countersFor et tk (pageLoads (db w))
  /\ analyticsEvents (db (snd (run (pageloadHandler now uuid req) w)))
     = analyticsEvents (db w).
Proof.
  intros Hne.
  destruct (run_pageloadHandler_store now uuid req w)
    as [[-> _]|[(_ & -> & _)|(_ & -> & _)]]; cbn [pageLoads analyticsEvents];
    try (split; reflexivity);
    (split; [|reflexivity]); apply countersFor_findOneAndUpdate_other;
    cbn [filterEventType filterTimeKey]; congruence.
Qed.

(** X3. When the increment fails, the page-load handler stops there: it
    responds 500 with the error's message, the store is unchanged, and the
    increment is the only store call issued (no detail record is attempted). *)
Theorem pageload_increment_failure_writes_nothing
    (now : Z) (uuid : string) (req : Request) (w : World) (e : Error)
    (later : list (option Error)) :
  validTime now ->
  faults w = Some e :: later ->
  run (pageloadHandler now uuid req) w
  = (Return (mkResponse 500 (Result false (Some (message e)))),
     mkWorld (db w) later
             (calls w
              ++ [PageLoadModel_findOneAndUpdate (mkFilter "pageLoad" (bucketKey now))
                                                 (mkUpdate 1 (Some now))])).
Proof.
  intros Hv Hf.
  destruct (pageloadHandler_first_call now uuid req Hv) as (k & Hh & Hthrow & _).
  rewrite Hh. cbn [run]. erewrite execOp_fail by exact Hf. rewrite Hthrow. reflexivity.
Qed.

(** X4. In every world and for every [now], a page load responds 200 exactly
    when both writes were applied; a detail record is never stored without
    its increment: either no detail is added, or exactly one is, the count of
    the bucket is one more than before and the response is 200. *)
Theorem pageload_detail_only_after_increment
    (now : Z) (uuid : string) (req : Request) (w : World) :
  (pageLoadDetails (db (snd (run (pageloadHandler now uuid req) w)))
   = pageLoadDetails (db w)
   /\ exists e, fst (run (pageloadHandler now uuid req) w) = Return (errorHandler e))
  \/ (exists detail,
        pageLoadDetails (db (snd (run (pageloadHandler now uuid req) w)))
        = (pageLoadDetails (db w) ++ [detail])%list
        /\ bucketCount "pageLoad" (bucketKey now)
             (pageLoads (db (snd (run (pageloadHandler now uuid req) w))))
           = bucketCount "pageLoad" (bucketKey now) (pageLoads (db w)) + 1
        /\ fst (run (pageloadHandler now uuid req) w)
           = Return (mkResponse 200 (Result true None))).
Proof.
  destruct (run_pageloadHandler_store now uuid req w)
    as [[-> He]|[(_ & -> & He)|(_ & -> & Hok)]]; cbn [pageLoads pageLoadDetails].
  - left. split; [reflexivity|exact He].
  - left. split; [reflexivity|exact He].
  - right. eexists. split; [reflexivity|].
    rewrite bucketCount_findOneAndUpdate. split; [reflexivity|exact Hok].
Qed.

(** ** Reading the series writes nothing *)

Lemma execOp_find_db q w : db (snd (execOp (PageLoadModel_find q) w)) = db w.
Proof.
  unfold execOp. destruct (faults w) as [|[e|] later]; reflexivity.
Qed.

(** X5. [GET /api/analytics/pageloads] is read-only: in every world and for
    every [now], valid or not, the store after the request is the store
    before it, and the handler issues at most one store call, a range
    query. *)
Theorem pageloads_is_read_only (now : Z) (w : World) :
  db (snd (run (pageloadsHandler now) w)) = db w
  /\ (calls (snd (run (pageloadsHandler now) w)) = calls w
      \/ exists q,
           calls (snd (run (pageloadsHandler now) w))
           = (calls w ++ [PageLoadModel_find q])%list).
Proof.
  unfold pageloadsHandler, pageloadsTry.
  destruct (newDate (Some now)) as [t|]; cbn [getTime minus];
    [destruct (newDate (Some (t - 60 * 60 * 1000)))|];
    cbn [toISOString lift bind tryCatch await next ret run snd];
    try (split; [reflexivity|left; reflexivity]).
  match goal with
  | |- context [execOp (PageLoadModel_find ?q) w] =>
      pose proof (execOp_find_db q w) as Hdb;
      assert (Hc : calls (snd (execOp (PageLoadModel_find q) w))
                   = (calls w ++ [PageLoadModel_find q])%list)
        by (unfold execOp; destruct (faults w) as [|[e|] later]; reflexivity);
      destruct (execOp (PageLoadModel_find q) w) as [[result|e] w1]
  end; cbn [snd] in Hdb, Hc; cbn [bind tryCatch lift next ret run snd].
  - match goal with
    | |- context [forLoop ?a ?b ?c ?d ?e] => destruct (forLoop a b c d e)
    end; cbn [bind tryCatch lift next ret run snd]; split; eauto.
  - split; eauto.
Qed.

(** ** What an event request writes *)

Lemma prefix_event s : String.prefix "event_" ("event_" ++ s) = true.
Proof using. apply String.prefix_correct. destruct s; reflexivity. Qed.

(** X6. In every world and for every body, [POST /api/analytics/event]
    responds 200 exactly when it stored one event record, whose event type
    starts with ["event_"]; otherwise it responds 500 and the store is
    unchanged.  It never writes a counter or a page-load detail. *)
Theorem event_response_reflects_store
    (now : Z) (uuid : string) (req : Request) (w : World) :
  (fst (run (eventHandler now uuid req) w) = Return (mkResponse 200 (Result true None))
   /\ exists detail,
        db (snd (run (eventHandler now uuid req) w))
        = mkStore (pageLoads (db w)) (pageLoadDetails (db w))
                  (analyticsEvents (db w) ++ [detail])
        /\ String.prefix "event_" (eventType detail) = true)
  \/ ((exists e, fst (run (eventHandler now uuid req) w) = Return (errorHandler e))
      /\ db (snd (run (eventHandler now uuid req) w)) = db w).
Proof.
  unfold eventHandler, eventTry.
  destruct (destructureEventData (body req)) as [[event data]|e];
    [cbn [lift bind fst snd];
     destruct (ToString event) as [name|e]; [destruct (newDate (Some now)) as [t|]|]|];
    cbn [toISOString lift bind tryCatch await next ret run fst snd];
    try (right; split; [eexists; reflexivity|reflexivity]).
  match goal with
  | |- context [execOp ?op w] =>
      destruct (execOp_shape op w) as [(e & later & Hf & He)|[Hs He]];
      rewrite He; clear He
  end; cbn [bind tryCatch lift next ret run fst snd db applyOp].
  - right. split; [eexists; reflexivity|reflexivity].
  - left. split; [reflexivity|]. eexists. split; [reflexivity|]. apply prefix_event.
Qed.

(** X7. A request to the event route whose body is [undefined] or [null]
    is answered 500 with [success: false]; no store call is issued and
    nothing is written. *)
Theorem event_without_body_is_rejected
    (now : Z) (uuid : string) (req : Request) (w : World) :
  body req = JUndefined \/ body req = JNull ->
  exists msg,
    run (eventHandler now uuid req) w
    = (Return (mkResponse 500 (Result false (Some msg))), w).
Proof.
  unfold eventHandler, eventTry. intros [->| ->];
    cbn [destructureEventData lift bind tryCatch next ret run errorHandler message];
    eexists; reflexivity.
Qed.

(** ** Invariants under every interleaving *)

Lemma orDefault_nonempty a b : b <> "" -> orDefault a b <> "".
Proof using.
  intros Hb. destruct a as [s|]; cbn [orDefault]; [|exact Hb].
  destruct (String.eqb_spec s ""); assumption.
Qed.

Ltac disciplined :=
  repeat first
    [ apply Disciplined_settled
    | apply Disciplined_await;
      [ cbn [routeCall eventType userAgent referrer filterEventType inc_count
             queryEventType];
        repeat split;
        first [ reflexivity | apply prefix_event
              | apply orDefault_nonempty; discriminate ]
      | intros [?|?] ]
    | progress cbn [bind tryCatch lift await ret next toISOString
                    destructureEventData fst snd]
    | match goal with
      | |- context [forLoop ?a ?b ?c ?d ?e] => destruct (forLoop a b c d e)
      end ].

(** Every route issues calls of the expected shape only. *)
Lemma handle_disciplined r : Disciplined (handle r).
Proof.
  destruct r as [now uuid req|now uuid req|now]; cbn [handle].
  - unfold pageloadHandler, pageloadTry. destruct (newDate (Some now)); disciplined.
  - unfold eventHandler, eventTry.
    destruct (destructureEventData (body req)) as [[event data]|e0];
      [cbn [lift bind fst snd]; destruct (ToString event)|];
      destruct (newDate (Some now)); disciplined.
  - unfold pageloadsHandler, pageloadsTry.
    destruct (newDate (Some now)) as [t|]; cbn [getTime minus];
      [destruct (newDate (Some (t - 60 * 60 * 1000)))|]; disciplined.
Qed.

Lemma bucketCount_findOneAndUpdate_le et tk f u docs :
  0 <= inc_count u ->
  bucketCount et tk docs <= bucketCount et tk (findOneAndUpdate f u docs).
Proof using.
  intros Hu. destruct f as [fe ft].
  destruct (string_dec fe et) as [He|He]; [destruct (string_dec ft tk) as [Ht|Ht]|].
  - subst. rewrite bucketCount_findOneAndUpdate. lia.
  - rewrite !bucketCount_countersFor, countersFor_findOneAndUpdate_other; [lia|].
    cbn. congruence.
  - rewrite !bucketCount_countersFor, countersFor_findOneAndUpdate_other; [lia|].
    cbn. congruence.
Qed.

Lemma Forall_findOneAndUpdate (Q : PageLoad.t -> Prop) f u docs :
  (forall d, Q d -> Q (applyUpdate u d)) ->
  Q (PageLoad.mk (filterEventType f) (filterTimeKey f) (0 + inc_count u)
                 (set_lastUpdated u)) ->
  Forall Q docs -> Forall Q (findOneAndUpdate f u docs).
Proof using.
  intros Hup Hnew. unfold findOneAndUpdate.
  induction docs as [|d docs IH]; intros H; cbn [updateFirst app].
  - constructor; [exact Hnew|constructor].
  - apply Forall_cons_iff in H. destruct H as [Hd Hrest].
    destruct (matchesFilter f d).
    + constructor; [apply Hup; exact Hd|exact Hrest].
    + specialize (IH Hrest). destruct (updateFirst f u docs) as [rest|];
        cbn [app]; constructor; assumption.
Qed.

Lemma grownFrom_refl s : grownFrom s s.
Proof.
  split; [exists []; symmetry; apply app_nil_r|].
  split; [exists []; symmetry; apply app_nil_r|]. intros. lia.
Qed.

Lemma grownFrom_trans s1 s2 s3 : grownFrom s1 s2 -> grownFrom s2 s3 -> grownFrom s1 s3.
Proof.
  intros ([a1 H1] & [b1 H2] & H3) ([a2 H4] & [b2 H5] & H6).
  split; [exists (a1 ++ a2)%list; rewrite H4, H1, app_assoc; reflexivity|].
  split; [exists (b1 ++ b2)%list; rewrite H5, H2, app_assoc; reflexivity|].
  intros et tk. specialize (H3 et tk). specialize (H6 et tk). lia.
Qed.

Lemma applyOp_grows op s : routeCall op -> grownFrom s (snd (applyOp op s)).
Proof.
  destruct op as [f u|doc|doc|q]; cbn [routeCall applyOp snd]; intros Hr.
  - split; [exists []; symmetry; apply app_nil_r|].
    split; [exists []; symmetry; apply app_nil_r|].
    intros et tk. cbn [pageLoads]. apply bucketCount_findOneAndUpdate_le.
    destruct Hr as [_ ->]. lia.
  - split; [exists [doc]; reflexivity|].
    split; [exists []; symmetry; apply app_nil_r|]. intros. cbn [pageLoads]. lia.
  - split; [exists []; symmetry; apply app_nil_r|].
    split; [exists [doc]; reflexivity|]. intros. cbn [pageLoads]. lia.
  - apply grownFrom_refl.
Qed.

Lemma applyOp_wellFormed op s :
  routeCall op -> wellFormedStore s -> wellFormedStore (snd (applyOp op s)).
Proof.
  unfold wellFormedStore.
  destruct op as [f u|doc|doc|q]; cbn [routeCall applyOp snd pageLoads pageLoadDetails
                                      analyticsEvents];
    intros Hr (H1 & H2 & H3).
  - split; [|split; assumption]. destruct Hr as [Hf Hu].
    apply Forall_findOneAndUpdate; [| |exact H1].
    + intros d [Hd Hc]. unfold applyUpdate.
      cbn [PageLoad.eventType PageLoad.count]. split; [exact Hd|lia].
    + cbn [PageLoad.eventType PageLoad.count]. split; [exact Hf|lia].
  - split; [assumption|]. split; [|assumption].
    apply Forall_app. split; [assumption|]. constructor; [exact Hr|constructor].
  - split; [assumption|]. split; [assumption|].
    apply Forall_app. split; [assumption|]. constructor; [exact Hr|constructor].
  - auto.
Qed.

Section DisciplinedRuns.

(** A property of the store that every call of the routes keeps. *)
Variable P : Store -> Prop.
Hypothesis P_applyOp : forall op s, routeCall op -> P s -> P (snd (applyOp op s)).

Lemma execOp_keeps op w : routeCall op -> P (db w) -> P (db (snd (execOp op w))).
Proof using P_applyOp.
  intros Hr H. unfold execOp.
  destruct (faults w) as [|[e|] later];
    try (pose proof (P_applyOp op (db w) Hr H);
         destruct (applyOp op (db w)); cbn [snd db] in *; assumption).
Qed.

Lemma stepAt_keeps : forall pool i w,
  Forall Disciplined pool -> P (db w) ->
  Forall Disciplined (fst (stepAt i pool w)) /\ P (db (snd (stepAt i pool w))).
Proof using P_applyOp.
  induction pool as [|h rest IH]; intros i w Hall H; cbn [stepAt]; [split; assumption|].
  apply Forall_cons_iff in Hall. destruct Hall as [Hh Hrest].
  destruct i as [|j].
  - destruct Hh as [o|op k Hr Hk]; cbn [stepHandler fst snd].
    + split; [constructor; [constructor|assumption]|assumption].
    + pose proof (execOp_keeps op w Hr H) as Hp.
      destruct (execOp op w) as [r w1]. cbn [fst snd] in *.
      split; [constructor; [apply Hk|assumption]|assumption].
  - destruct (IH j w Hrest H) as [H1 H2].
    destruct (stepAt j rest w) as [rest1 w1]. cbn [fst snd] in *.
    split; [constructor; assumption|assumption].
Qed.

Lemma interleave_keeps : forall schedule pool w,
  Forall Disciplined pool -> P (db w) ->
  P (db (snd (interleave schedule pool w))).
Proof using P_applyOp.
  induction schedule as [|i later IH]; intros pool w Hall H; cbn [interleave];
    [exact H|].
  destruct (stepAt_keeps pool i w Hall H) as [H1 H2].
  destruct (stepAt i pool w) as [pool1 w1]. cbn [fst snd] in *. apply IH; assumption.
Qed.

End DisciplinedRuns.

Lemma handlers_disciplined reqs : Forall Disciplined (map handle reqs).
Proof.
  apply Forall_forall. intros h Hh. apply in_map_iff in Hh.
  destruct Hh as (r & <- & _). apply handle_disciplined.
Qed.

(** X8. However the handlers of any requests interleave and whichever
    store calls fail, the store only grows: the page-load details and the
    event records are only appended to (what was stored stays, in place) and
    no counter's count ever goes down. *)
Theorem store_only_grows (reqs : list Incoming) (schedule : list nat) (w : World) :
  grownFrom (db w) (db (snd (interleave schedule (map handle reqs) w))).
Proof.
  apply (interleave_keeps (grownFrom (db w))).
  - intros op s Hr Hs. apply (grownFrom_trans _ s); [exact Hs|apply applyOp_grows, Hr].
  - apply handlers_disciplined.
  - apply grownFrom_refl.
Qed.

(** X9. The shape of the stored documents is an invariant of every
    interleaving: if every counter has event type ["pageLoad"] and a count of
    at least 1, every page-load detail has event type ["pageLoadDetail"],
    every event record an event type starting with ["event_"], and all of
    them a non-empty user agent and referrer, then the same holds after any
    requests have run, whatever failed. *)
Theorem stored_documents_stay_well_formed
    (reqs : list Incoming) (schedule : list nat) (w : World) :
  wellFormedStore (db w) ->
  wellFormedStore (db (snd (interleave schedule (map handle reqs) w))).
Proof.
  intros H. apply (interleave_keeps wellFormedStore).
  - apply applyOp_wellFormed.
  - apply handlers_disciplined.
  - exact H.
Qed.

(** ** The series and the store *)

Lemma fourDigitYear_valid t : fourDigitYear t -> validTime t.
Proof using. unfold fourDigitYear, validTime, maxTime. lia. Qed.

Lemma fourDigitYear_between now i :
  fourDigitYear now -> fourDigitYear (now - 3600000) -> 0 <= i <= 60 ->
  fourDigitYear (now - i * 60000).
Proof using. unfold fourDigitYear. lia. Qed.

Lemma minute_shift now i : (now - i * 60000) / msPerMinute = now / msPerMinute - i.
Proof using.
  unfold msPerMinute. replace (now - i * 60000) with (now + (- i) * 60000) by lia.
  rewrite Z.div_add by lia. lia.
Qed.

(** Of two of the 61 minutes from one hour ago to now, the earlier has the
    smaller key. *)
Lemma key_order now i j :
  fourDigitYear now -> fourDigitYear (now - 3600000) -> 0 <= j -> j < i -> i <= 60 ->
  String.compare (bucketKey (now - i * 60000)) (bucketKey (now - j * 60000)) = Lt.
Proof using.
  intros H1 H2 Hj Hji Hi.
  rewrite bucketKey_compare by (apply fourDigitYear_between; try assumption; lia).
  rewrite !minute_shift. apply Z.compare_lt_iff. lia.
Qed.

Lemma string_leb_refl s : String.leb s s = true.
Proof using. unfold String.leb. rewrite string_compare_refl. reflexivity. Qed.

Lemma string_compare_Lt_neq s1 s2 : String.compare s1 s2 = Lt -> s1 <> s2.
Proof using. intros H ->. rewrite string_compare_refl in H. discriminate. Qed.

(** Sorting by key does not change which counter of a key comes first. *)
Lemma find_insertByTimeKey key x : forall s,
  List.find (fun c => String.eqb (PageLoad.timeKey c) key) (insertByTimeKey x s)
  = if String.eqb (PageLoad.timeKey x) key then Some x
    else List.find (fun c => String.eqb (PageLoad.timeKey c) key) s.
Proof using.
  induction s as [|y s IH]; cbn [insertByTimeKey List.find]; [reflexivity|].
  destruct (String.leb (PageLoad.timeKey x) (PageLoad.timeKey y)) eqn:E;
    cbn [List.find]; [reflexivity|].
  rewrite IH.
  destruct (String.eqb_spec (PageLoad.timeKey x) key) as [Hx|Hx];
    destruct (String.eqb_spec (PageLoad.timeKey y) key) as [Hy|Hy]; try reflexivity.
  rewrite Hx, Hy, string_leb_refl in E. discriminate.
Qed.

Lemma find_sortByTimeKey key : forall l,
  List.find (fun c => String.eqb (PageLoad.timeKey c) key) (sortByTimeKey l)
  = List.find (fun c => String.eqb (PageLoad.timeKey c) key) l.
Proof using.
  induction l as [|x l IH]; cbn [sortByTimeKey fold_right List.find]; [reflexivity|].
  fold (sortByTimeKey l). rewrite find_insertByTimeKey, IH. reflexivity.
Qed.

Lemma find_filter {A} (p f : A -> bool) : forall l,
  List.find p (filter f l) = List.find (fun x => f x && p x) l.
Proof using.
  induction l as [|x l IH]; cbn [filter List.find]; [reflexivity|].
  destruct (f x); cbn [List.find andb]; rewrite IH; reflexivity.
Qed.

Lemma find_pointwise {A} (p p' : A -> bool) : forall l,
  (forall x, p x = p' x) -> List.find p l = List.find p' l.
Proof using.
  intros l H. induction l as [|x l IH]; cbn [List.find]; [reflexivity|].
  rewrite H, IH. reflexivity.
Qed.

(** The first counter of a key in a query result whose range holds the key
    is the first counter of the pair in the collection. *)
Lemma find_in_range q docs key :
  String.leb (gte q) key = true -> String.leb key (lte q) = true ->
  match List.find (fun c => String.eqb (PageLoad.timeKey c) key) (find q docs) with
  | Some c => PageLoad.count c
  | None => 0
  end
  = bucketCount (queryEventType q) key docs.
Proof using.
  intros Hlo Hhi. unfold find, bucketCount.
  rewrite find_sortByTimeKey, find_filter.
  rewrite (find_pointwise _ (matchesFilter (mkFilter (queryEventType q) key)));
    [reflexivity|].
  intros c. unfold matchesQuery, matchesFilter. cbn [filterEventType filterTimeKey].
  destruct (String.eqb_spec (PageLoad.timeKey c) key) as [->|Hne].
  - rewrite Hlo, Hhi, !andb_true_r. reflexivity.
  - rewrite !andb_false_r. reflexivity.
Qed.

Lemma slot_key_in_range now i :
  fourDigitYear now -> fourDigitYear (now - 3600000) -> 0 <= i < 60 ->
  String.leb (bucketKey (now - 3600000)) (bucketKey (now - i * 60000)) = true
  /\ String.leb (bucketKey (now - i * 60000)) (bucketKey now) = true.
Proof using.
  intros H1 H2 Hi. unfold String.leb. split.
  - replace (now - 3600000) with (now - 60 * 60000) by lia.
    rewrite key_order by (try assumption; lia). reflexivity.
  - replace (bucketKey now) with (bucketKey (now - 0 * 60000)) by (f_equal; lia).
    destruct (Z.eq_dec i 0) as [->|Hne].
    + rewrite string_compare_refl. reflexivity.
    + rewrite key_order by (try assumption; lia). reflexivity.
Qed.

Lemma seriesSlot_from_store now docs i :
  fourDigitYear now -> fourDigitYear (now - 3600000) -> (i < 60)%nat ->
  seriesSlot now
    (find (mkRangeQuery "pageLoad" (bucketKey (now - 3600000)) (bucketKey now)) docs)
    (Z.of_nat i)
  = Slot.mk (bucketKey (now - Z.of_nat i * 60000))
            (displayTime (now - Z.of_nat i * 60000))
            (bucketCount "pageLoad" (bucketKey (now - Z.of_nat i * 60000)) docs).
Proof.
  intros H1 H2 Hi. unfold seriesSlot. cbv zeta. f_equal.
  destruct (slot_key_in_range now (Z.of_nat i) H1 H2 ltac:(lia)) as [Hlo Hhi].
  apply (find_in_range (mkRangeQuery "pageLoad" _ _)); assumption.
Qed.

(** X10. When the instants from one hour ago to now have four-digit years
    and the query succeeds, each of the 60 slots reports the count the store
    holds for (["pageLoad"], the slot's key), 0 when it holds none: every
    slot's key lies in the queried range and sorting does not change which
    counter of a key is found first. *)
Theorem series_counts_are_store_counts (now : Z) (w : World) :
  fourDigitYear now -> fourDigitYear (now - 3600000) -> succeeds 1 w ->
  fst (run (pageloadsHandler now) w)
  = Return (mkResponse 200 (PageLoads
      (map (fun i =>
              Slot.mk (bucketKey (now - Z.of_nat i * 60000))
                      (displayTime (now - Z.of_nat i * 60000))
                      (bucketCount "pageLoad" (bucketKey (now - Z.of_nat i * 60000))
                                   (pageLoads (db w))))
           (rev (seq 0 60))))).
Proof.
  intros H1 H2 Hs.
  destruct (pageloadsHandler_call now (fourDigitYear_valid _ H1) (fourDigitYear_valid _ H2))
    as (k & Hk & _ & Hr).
  rewrite Hk. cbn [run]. rewrite execOp_ok by assumption.
  cbn [applyOp fst snd]. rewrite Hr. cbn [run fst].
  unfold buildLast60Minutes. do 3 f_equal. apply map_ext_in.
  intros i Hi. apply in_rev, in_seq in Hi.
  apply seriesSlot_from_store; try assumption. lia.
Qed.

(** X11. With four-digit years, the 60 slot keys are strictly increasing
    from the oldest slot to the newest, hence pairwise different, and the
    lower bound of the range query, the key of the minute one hour ago, is
    strictly below all of them: no slot shows that minute. *)
Theorem slot_keys_strictly_increase (now : Z) :
  fourDigitYear now -> fourDigitYear (now - 3600000) ->
  (forall i j, 0 <= j -> j < i -> i < 60 ->
     String.compare (bucketKey (now - i * 60000)) (bucketKey (now - j * 60000)) = Lt)
  /\ (forall j, 0 <= j < 60 ->
        String.compare (bucketKey (now - 3600000)) (bucketKey (now - j * 60000)) = Lt)
  /\ forall result,
       NoDup (map Slot.timeKey (buildLast60Minutes now result))
       /\ ~ In (bucketKey (now - 3600000))
               (map Slot.timeKey (buildLast60Minutes now result)).
Proof.
  intros H1 H2.
  assert (Hlow : forall j, 0 <= j < 60 ->
            String.compare (bucketKey (now - 3600000)) (bucketKey (now - j * 60000)) = Lt).
  { intros j Hj. replace (now - 3600000) with (now - 60 * 60000) by lia.
    apply key_order; try assumption; lia. }
  split; [intros i j Hj Hji Hi; apply key_order; try assumption; lia|].
  split; [exact Hlow|].
  intros result. unfold buildLast60Minutes. rewrite map_map.
  cbn [seriesSlot Slot.timeKey]. split.
  - apply NoDup_map_NoDup_ForallPairs; [|apply NoDup_rev, seq_NoDup].
    intros a b Ha Hb Heq. apply in_rev, in_seq in Ha. apply in_rev, in_seq in Hb.
    destruct (Nat.lt_trichotomy a b) as [Hlt|[Heq'|Hgt]]; [|exact Heq'|]; exfalso.
    + apply (string_compare_Lt_neq _ _
               (key_order now (Z.of_nat b) (Z.of_nat a) H1 H2 ltac:(lia) ltac:(lia) ltac:(lia))).
      symmetry. exact Heq.
    + apply (string_compare_Lt_neq _ _
               (key_order now (Z.of_nat a) (Z.of_nat b) H1 H2 ltac:(lia) ltac:(lia) ltac:(lia))).
      exact Heq.
  - intros Hin. apply in_map_iff in Hin. destruct Hin as (a & Heq & Ha).
    apply in_rev, in_seq in Ha.
    apply (string_compare_Lt_neq _ _ (Hlow (Z.of_nat a) ltac:(lia))). symmetry. exact Heq.
Qed.

(** ** A page load shows in the series *)

Lemma succeeds_weaken n w : succeeds (S n) w -> succeeds n w.
Proof.
  unfold succeeds. generalize (faults w). clear w.
  induction n as [|n IH]; intros fs H; [constructor|].
  destruct fs as [|f fs]; [constructor|]. cbn [firstn] in H. cbn [firstn].
  apply Forall_cons_iff in H. destruct H as [Hf Hr].
  constructor; [exact Hf|]. apply IH. exact Hr.
Qed.

Lemma fourDigitYear_same_minute t t' :
  fourDigitYear t' -> t / msPerMinute = t' / msPerMinute -> fourDigitYear t.
Proof using.
  clear Num NumberToString toLocaleTimeString.
  unfold fourDigitYear, msPerMinute. intros H E. Z.div_mod_to_equations. lia.
Qed.

Lemma bucketCount_other_key et tk tk' u docs :
  tk' <> tk ->
  bucketCount et tk (findOneAndUpdate (mkFilter et tk') u docs) = bucketCount et tk docs.
Proof using.
  intros Hne. rewrite !bucketCount_countersFor, countersFor_findOneAndUpdate_other;
    [reflexivity|]. cbn. congruence.
Qed.

(** X12. A page load is visible in the series.  Let a page load received at
    [t] be recorded (both writes succeed) and the series be read at [now],
    with [t] in the minute of slot index [i] (the minute of [now - i * 60s],
    [0 <= i < 60]) and four-digit years throughout.  Then the slot of that
    minute reports one more than the store held before, and every other slot
    reports what the store held. *)
Theorem recorded_page_load_shows_in_series
    (t now i : Z) (uuid : string) (req : Request) (w : World) :
  fourDigitYear now -> fourDigitYear (now - 3600000) ->
  0 <= i < 60 ->
  t / 60000 = (now - i * 60000) / 60000 ->
  succeeds 3 w ->
  fst (run (pageloadsHandler now) (snd (run (pageloadHandler t uuid req) w)))
  = Return (mkResponse 200 (PageLoads
      (map (fun j =>
              Slot.mk (bucketKey (now - Z.of_nat j * 60000))
                      (displayTime (now - Z.of_nat j * 60000))
                      (bucketCount "pageLoad" (bucketKey (now - Z.of_nat j * 60000))
                                   (pageLoads (db w))
                       + (if Z.of_nat j =? i then 1 else 0)))
           (rev (seq 0 60))))).
Proof.
  intros H1 H2 Hi Hmin Hs3.
  assert (Ht4 : fourDigitYear t).
  { apply (fourDigitYear_same_minute t (now - i * 60000)); [|exact Hmin].
    apply fourDigitYear_between; try assumption; lia. }
  assert (Hkey : bucketKey t = bucketKey (now - i * 60000)).
  { rewrite <- !minuteKey_bucketKey. f_equal. apply same_minute_same_prefix. exact Hmin. }
  pose proof (succeeds_weaken 2 w Hs3) as Hs2.
  destruct (succeeds_S 2 w Hs3) as [_ Hrest].
  rewrite (run_pageloadHandler_ok t uuid req w (fourDigitYear_valid _ Ht4) Hs2).
  cbn [snd].
  destruct (pageloadsHandler_call now (fourDigitYear_valid _ H1) (fourDigitYear_valid _ H2))
    as (k & Hk & _ & Hr).
  rewrite Hk. cbn [run]. rewrite execOp_ok.
  - cbn [applyOp fst snd db pageLoads]. rewrite Hr. cbn [run fst].
    unfold buildLast60Minutes. do 3 f_equal. apply map_ext_in.
    intros j Hj. apply in_rev, in_seq in Hj.
    rewrite seriesSlot_from_store by (try assumption; lia).
    f_equal. rewrite Hkey.
    destruct (Z.eqb_spec (Z.of_nat j) i) as [->|Hne].
    + rewrite bucketCount_findOneAndUpdate. reflexivity.
    + rewrite bucketCount_other_key; [lia|].
      destruct (Z_lt_le_dec (Z.of_nat j) i) as [Hlt|Hge].
      * apply (string_compare_Lt_neq _ _
                 (key_order now i (Z.of_nat j) H1 H2 ltac:(lia) ltac:(lia) ltac:(lia))).
      * intros Heq.
        apply (string_compare_Lt_neq _ _
                 (key_order now (Z.of_nat j) i H1 H2 ltac:(lia) ltac:(lia) ltac:(lia))).
        symmetry. exact Heq.
  - destruct (succeeds_S 1 _ (Hrest (db w) (calls w))) as [_ Hrest'].
    apply Hrest'.
Qed.

(** ** Keys of the detail records *)

Lemma append_inj_length : forall a b s s',
  String.length a = String.length b -> a ++ s = b ++ s' -> a = b /\ s = s'.
Proof using.
  induction a as [|c a IH]; intros [|c' b] s s' Hl H; cbn in Hl; try discriminate.
  - split; [reflexivity|exact H].
  - cbn [append] in H. inversion H as [[Hc Hrest]]. injection Hl as Hl.
    destruct (IH b s s' Hl Hrest) as [-> ->]. split; reflexivity.
Qed.

Lemma length_append : forall a b,
  String.length (a ++ b) = (String.length a + String.length b)%nat.
Proof using.
  induction a as [|c a IH]; intros b; cbn [append String.length plus]; [reflexivity|].
  rewrite IH. reflexivity.
Qed.

(** X13. The key of a page-load detail record, bucket key + ["#"] +
    identifier, determines both parts: two such keys are equal exactly when
    the bucket keys are equal and the identifiers are equal.  Such a key is
    never the key of a counter. *)
Theorem pageload_detail_key_determines_its_parts (t1 t2 : Z) (u1 u2 : string) :
  (bucketKey t1 ++ "#" ++ u1 = bucketKey t2 ++ "#" ++ u2
   <-> bucketKey t1 = bucketKey t2 /\ u1 = u2)
  /\ bucketKey t1 ++ "#" ++ u1 <> bucketKey t2.
Proof using.
  split; [split|].
  - intros H. apply append_inj_length in H; [|rewrite !bucketKey_length; reflexivity].
    destruct H as [Hk Hu]. split; [exact Hk|]. cbn [append] in Hu.
    inversion Hu. reflexivity.
  - intros [-> ->]. reflexivity.
  - intros H. apply (f_equal String.length) in H.
    rewrite length_append, !bucketKey_length in H. cbn [append String.length] in H. lia.
Qed.

(** ** ISO strings are in chronological order *)

Lemma isoString_fourDigitYear t :
  0 <= YearFromTime t <= 9999 ->
  isoString t =
  ToZeroPaddedDecimalString (YearFromTime t) 4 ++ "-" ++
  ToZeroPaddedDecimalString (MonthFromTime t + 1) 2 ++ "-" ++
  ToZeroPaddedDecimalString (DateFromTime t) 2 ++ "T" ++
  ToZeroPaddedDecimalString (HourFromTime t) 2 ++ ":" ++
  ToZeroPaddedDecimalString (MinFromTime t) 2 ++ ":" ++
  ToZeroPaddedDecimalString (SecFromTime t) 2 ++ "." ++
  ToZeroPaddedDecimalString (msFromTime t) 3 ++ "Z".
Proof using.
  intros Hy. unfold isoString, YearString.
  replace ((0 <=? YearFromTime t) && (YearFromTime t <=? 9999)) with true
    by (symmetry; apply andb_true_iff; split; apply Z.leb_le; lia).
  reflexivity.
Qed.

Lemma isoString_length t : fourDigitYear t -> String.length (isoString t) = 24%nat.
Proof using.
  intros H. rewrite isoString_fourDigitYear by (apply fourDigitYear_year; exact H).
  reflexivity.
Qed.

Lemma second_decomposition t :
  t = t / msPerMinute * 60000 + SecFromTime t * 1000 + msFromTime t
  /\ 0 <= SecFromTime t < 60 /\ 0 <= msFromTime t < 1000.
Proof using.
  clear Num NumberToString toLocaleTimeString.
  unfold SecFromTime, msFromTime, msPerMinute, msPerSecond.
  replace 60000 with (1000 * 60) at 1 by reflexivity.
  rewrite <- Z.div_div by lia.
  generalize (Z.div_mod t 1000 ltac:(lia)) (Z.mod_pos_bound t 1000 ltac:(lia)).
  generalize (t mod 1000). generalize (t / 1000). intros q r Ht Hr.
  Z.div_mod_to_equations. lia.
Qed.

(** On instants with a four-digit year, comparing ISO strings is comparing
    the instants. *)
Lemma isoString_compare t1 t2 :
  fourDigitYear t1 -> fourDigitYear t2 ->
  String.compare (isoString t1) (isoString t2) = (t1 ?= t2).
Proof using.
  intros H1 H2.
  pose proof (fourDigitYear_year t1 H1) as Hy1.
  pose proof (fourDigitYear_year t2 H2) as Hy2.
  rewrite !isoString_fourDigitYear by assumption.
  repeat (rewrite compare_padded; cbn [append]; rewrite ?compare_separator).
  rewrite string_compare_refl.
  change (10 ^ Z.of_nat 4) with 10000. change (10 ^ Z.of_nat 2) with 100.
  change (10 ^ Z.of_nat 3) with 1000.
  pose proof (MonthFromTime_range t1). pose proof (MonthFromTime_range t2).
  pose proof (DateFromTime_range t1). pose proof (DateFromTime_range t2).
  destruct (minute_decomposition t1) as (_ & Hh1 & Hm1).
  destruct (minute_decomposition t2) as (_ & Hh2 & Hm2).
  destruct (second_decomposition t1) as (E1 & Hs1 & Hms1).
  destruct (second_decomposition t2) as (E2 & Hs2 & Hms2).
  rewrite !Z.mod_small by lia.
  destruct (Z.compare_spec (t1 / msPerMinute) (t2 / msPerMinute)) as [E|L|G].
  - destruct (fields_same_minute t1 t2 E) as (-> & -> & -> & -> & ->).
    rewrite !Z.compare_refl.
    destruct (Z.compare_spec t1 t2);
      destruct (Z.compare_spec (SecFromTime t1) (SecFromTime t2));
      try reflexivity; try (exfalso; lia);
      destruct (Z.compare_spec (msFromTime t1) (msFromTime t2));
      try reflexivity; exfalso; lia.
  - pose proof (fields_earlier_minute t1 t2 L) as HL.
    assert (Hlt : t1 < t2) by lia. apply Z.compare_lt_iff in Hlt. rewrite Hlt.
    repeat match goal with
           | |- context [?a ?= ?b] => destruct (Z.compare_spec a b)
           end; try reflexivity; exfalso; lia.
  - pose proof (fields_earlier_minute t2 t1 G) as HG.
    assert (Hgt : t2 < t1) by lia. apply Z.compare_gt_iff in Hgt. rewrite Hgt.
    repeat match goal with
           | |- context [?a ?= ?b] => destruct (Z.compare_spec a b)
           end; try reflexivity; exfalso; lia.
Qed.

(** X14. For instants with a four-digit year, ISO strings compare as the
    instants do, so the key of an event record, ISO string of now + ["#"] +
    identifier, determines the instant to the millisecond and the
    identifier: two event keys are equal exactly when both are. *)
Theorem event_key_determines_instant_and_identifier (t1 t2 : Z) (u1 u2 : string) :
  fourDigitYear t1 -> fourDigitYear t2 ->
  String.compare (isoString t1) (isoString t2) = (t1 ?= t2)
  /\ (isoString t1 ++ "#" ++ u1 = isoString t2 ++ "#" ++ u2 <-> t1 = t2 /\ u1 = u2).
Proof using.
  intros H1 H2. pose proof (isoString_compare t1 t2 H1 H2) as Hc.
  split; [exact Hc|]. split.
  - intros H. apply append_inj_length in H; [|rewrite !isoString_length by assumption; reflexivity].
    destruct H as [Hiso Hu]. split.
    + rewrite Hiso, string_compare_refl in Hc. symmetry in Hc.
      apply Z.compare_eq in Hc. exact Hc.
    + cbn [append] in Hu. inversion Hu. reflexivity.
  - intros [-> ->]. reflexivity.
Qed.

(** ** Counting when store calls fail *)

Lemma stepHandler_bounded K T c h w :
  Pending K T h \/ Quiet K h ->
  counterStands K T c (pageLoads (db w)) ->
  (Pending K T (fst (stepHandler h w)) \/ Quiet K (fst (stepHandler h w)))
  /\ exists c', counterStands K T c' (pageLoads (db (snd (stepHandler h w))))
                /\ (c' + pendingIncrements K [fst (stepHandler h w)]
                    <= c + pendingIncrements K [h])%nat.
Proof.
  intros Hh Hc. destruct Hh as [Hp|Hq].
  - pose proof (pendingIncrements_Pending K T h Hp) as Hone.
    destruct Hp as (ts & k & HT & -> & Hk). cbn [stepHandler].
    match goal with
    | |- context [execOp ?op w] =>
        destruct (execOp_shape op w) as [(e & later & Hf & He)|[Hs He]];
        rewrite He; clear He
    end; cbn [fst snd db applyOp pageLoads].
    + split; [right; apply Hk|]. exists c. split; [exact Hc|].
      rewrite (pendingIncrements_Quiet K _ (Hk _)). lia.
    + split; [right; apply Hk|]. exists (S c).
      split; [apply counterStands_increment; assumption|].
      rewrite (pendingIncrements_Quiet K _ (Hk _)), Hone. lia.
  - destruct Hq as [o|op k Ht Hk]; cbn [stepHandler fst snd].
    + split; [right; constructor|]. exists c. split; [exact Hc|lia].
    + destruct (execOp_shape op w) as [(e & later & Hf & He)|[Hs He]];
        rewrite He; clear He; cbn [fst snd db];
        (split; [right; apply Hk|]); exists c;
        (split; [|rewrite (pendingIncrements_Quiet K _ (Hk _)); lia]).
      * exact Hc.
      * unfold counterStands in *. rewrite applyOp_untouched by assumption. exact Hc.
Qed.

Lemma stepAt_bounded K T : forall pool i w N,
  Bounded K T N pool w ->
  Bounded K T N (fst (stepAt i pool w)) (snd (stepAt i pool w)).
Proof.
  unfold Bounded.
  induction pool as [|h rest IH]; intros i w N (Hall & c & Hc & Hn); cbn [stepAt].
  - split; [constructor|]. exists c. split; assumption.
  - apply Forall_cons_iff in Hall. destruct Hall as [Hh Hrest].
    rewrite pendingIncrements_cons in Hn. destruct i as [|j].
    + destruct (stepHandler_bounded K T c h w Hh Hc) as (Hh1 & c1 & Hc1 & Hn1).
      destruct (stepHandler h w) as [h1 w1]. cbn [fst snd] in *.
      split; [constructor; assumption|]. exists c1. split; [assumption|].
      rewrite pendingIncrements_cons. lia.
    + destruct (IH j w (c + pendingIncrements K rest)%nat) as (Hall1 & c1 & Hc1 & Hn1).
      { split; [assumption|]. exists c. split; [assumption|lia]. }
      destruct (stepAt j rest w) as [rest1 w1]. cbn [fst snd] in *.
      split; [constructor; assumption|]. exists c1. split; [assumption|].
      rewrite pendingIncrements_cons. lia.
Qed.

Lemma interleave_bounded K T N : forall schedule pool w,
  Bounded K T N pool w ->
  Bounded K T N (fst (interleave schedule pool w)) (snd (interleave schedule pool w)).
Proof.
  induction schedule as [|i later IH]; intros pool w Hb; cbn [interleave]; [exact Hb|].
  pose proof (stepAt_bounded K T pool i w N Hb) as H1.
  destruct (stepAt i pool w) as [pool1 w1]. cbn [fst snd] in H1. apply IH. exact H1.
Qed.

Lemma initial_bounded K reqs w :
  countersFor "pageLoad" K (pageLoads (db w)) = [] ->
  Bounded K (stamps K reqs) (List.length (filter (incrementsKey K) reqs))
          (map handle reqs) w.
Proof.
  intros Hc.
  assert (Hall : forall l, incl l reqs ->
            Forall (fun h => Pending K (stamps K reqs) h \/ Quiet K h) (map handle l)
            /\ pendingIncrements K (map handle l)
               = List.length (filter (incrementsKey K) l)).
  { induction l as [|r l IH]; intros Hincl.
    - split; [constructor|reflexivity].
    - destruct IH as [IH1 IH2]; [intros x Hx; apply Hincl; right; exact Hx|].
      destruct (handle_staged K (stamps K reqs) r) as [Hs Hp].
      { intros now uuid req -> Hk. exists uuid, req. split; [|exact Hk].
        apply Hincl. left. reflexivity. }
      cbn [map filter]. split; [constructor; assumption|].
      rewrite pendingIncrements_cons, Hp, IH2.
      destruct (incrementsKey K r); reflexivity. }
  destruct (Hall reqs (incl_refl reqs)) as [H1 H2].
  split; [exact H1|]. exists 0%nat. split; [exact Hc|]. rewrite H2. lia.
Qed.

(** X15. No bucket is ever over-counted.  Starting without a counter for
    (["pageLoad"], [K]), at every point of every interleaving of any
    requests, whichever store calls fail, either there is still no counter
    for the pair or there is exactly one, its count is between 1 and the
    number of page loads of bucket [K] among the requests, and it was last
    updated at the time of one of them. *)
Theorem bucket_is_never_overcounted
    (K : string) (reqs : list Incoming) (schedule : list nat) (w0 : World) :
  countersFor "pageLoad" K (pageLoads (db w0)) = [] ->
  countersFor "pageLoad" K
    (pageLoads (db (snd (interleave schedule (map handle reqs) w0)))) = []
  \/ exists c now uuid req,
       1 <= c <= Z.of_nat (List.length (filter (incrementsKey K) reqs))
       /\ In (PostPageload now uuid req) reqs
       /\ bucketKey now = K
       /\ countersFor "pageLoad" K
            (pageLoads (db (snd (interleave schedule (map handle reqs) w0))))
          = [PageLoad.mk "pageLoad" K c (Some now)].
Proof.
  intros Hc.
  destruct (interleave_bounded K (stamps K reqs) _ schedule _ _
              (initial_bounded K reqs w0 Hc)) as (_ & c & Hst & Hn).
  destruct c as [|c]; cbn [counterStands] in Hst; [left; exact Hst|].
  right. destruct Hst as (ts & (uuid & req & Hin & Hk) & Hcount).
  exists (Z.of_nat (S c)), ts, uuid, req.
  split; [lia|]. split; [exact Hin|].
  cbn [incrementsKey] in Hk. apply andb_true_iff in Hk. destruct Hk as [_ Hk].
  split; [apply String.eqb_eq; exact Hk|exact Hcount].
Qed.

End Server.

(** * Concrete runs

    JSON numbers are carried as their decimal text here, the locale prints
    nothing, [now] is 2024-01-15T10:23:45.678Z and the store starts empty. *)

(** C2: 10:23 and 10:24 of one day agree through the tens digit of the
    minute, the first 15 characters, and have different bucket keys. *)
Lemma bucketKey_tens_digit_counterexample :
  JSDate.isoString 1705314180000 = "2024-01-15T10:23:00.000Z"
  /\ JSDate.isoString 1705314240000 = "2024-01-15T10:24:00.000Z"
  /\ validTime 1705314180000 /\ validTime 1705314240000
  /\ substring 0 15 (JSDate.isoString 1705314180000)
     = substring 0 15 (JSDate.isoString 1705314240000)
  /\ bucketKey 1705314180000 = "2024-01-15T10:230:00"
  /\ bucketKey 1705314240000 = "2024-01-15T10:240:00"
  /\ bucketKey 1705314180000 <> bucketKey 1705314240000.
Proof.
  repeat split; try (vm_compute; reflexivity);
    try (unfold validTime, JSDate.maxTime; lia).
  vm_compute. discriminate.
Qed.

Lemma bucketKey_minute_granularity_witness :
  1705314225678 / 60000 = 1705314200000 / 60000
  /\ bucketKey 1705314225678 = bucketKey 1705314200000.
Proof.
  assert (H : 1705314225678 / 60000 = 1705314200000 / 60000) by reflexivity.
  split; [exact H|].
  destruct (bucketKey_minute_granularity 1705314225678 1705314200000) as (Hp & Hm & _).
  exact (Hp (Hm H)).
Defined.

(** C5: the last millisecond of year 9999 and the first of year 10000. *)
Lemma bucketKey_year_10000_counterexample :
  JSDate.isoString 253402300799999 = "9999-12-31T23:59:59.999Z"
  /\ JSDate.isoString 253402300800000 = "+010000-01-01T00:00:00.000Z"
  /\ validTime 253402300799999 /\ validTime 253402300800000
  /\ 253402300799999 < 253402300800000
  /\ bucketKey 253402300799999 = "9999-12-31T23:590:00"
  /\ bucketKey 253402300800000 = "+010000-01-01T000:00"
  /\ String.leb (bucketKey 253402300799999) (bucketKey 253402300800000) = false.
Proof.
  repeat split; try (vm_compute; reflexivity);
    unfold validTime, JSDate.maxTime; lia.
Qed.

Lemma bucketKey_monotone_four_digit_years_witness :
  fourDigitYear 1705314225678 /\ fourDigitYear 1705314300000
  /\ 1705314225678 < 1705314300000
  /\ String.leb (bucketKey 1705314225678) (bucketKey 1705314300000) = true.
Proof.
  assert (H1 : fourDigitYear 1705314225678) by (unfold fourDigitYear; lia).
  assert (H2 : fourDigitYear 1705314300000) by (unfold fourDigitYear; lia).
  assert (H3 : 1705314225678 < 1705314300000) by lia.
  split; [exact H1|]. split; [exact H2|]. split; [exact H3|].
  exact (proj1 (bucketKey_monotone_four_digit_years _ _ H1 H2) H3).
Defined.

Lemma minute_keys_are_bucket_keys_witness :
  validTime 1705314225678 /\ validTime (1705314225678 - 3600000)
  /\ exists k,
       pageloadHandler string 1705314225678 "id"
         (mkRequest string (JObject string []) None None None)
       = Await string Response
           (PageLoadModel_findOneAndUpdate string
              (mkFilter "pageLoad" "2024-01-15T10:230:00")
              (mkUpdate 1 (Some 1705314225678))) k.
Proof.
  assert (H1 : validTime 1705314225678) by (unfold validTime, JSDate.maxTime; lia).
  assert (H2 : validTime (1705314225678 - 3600000)) by (unfold validTime, JSDate.maxTime; lia).
  split; [exact H1|]. split; [exact H2|].
  exact (proj1 (proj2 (minute_keys_are_bucket_keys string (fun _ => "") 1705314225678 "id"
                         (mkRequest string (JObject string []) None None None) H1 H2))).
Defined.

Lemma pageloads_returns_sixty_slots_witness :
  validTime 1705314225678 /\ validTime (1705314225678 - 3600000)
  /\ List.length (buildLast60Minutes (fun _ => "") 1705314225678 []) = 60%nat.
Proof.
  assert (H1 : validTime 1705314225678) by (unfold validTime, JSDate.maxTime; lia).
  assert (H2 : validTime (1705314225678 - 3600000)) by (unfold validTime, JSDate.maxTime; lia).
  split; [exact H1|]. split; [exact H2|].
  exact (proj1 (proj2 (pageloads_returns_sixty_slots string (fun _ => "") 1705314225678 H1 H2)) []).
Defined.

Lemma pageload_issues_two_writes_witness :
  validTime 1705314225678
  /\ succeeds string 2 (mkWorld string (mkStore string [] [] []) [] [])
  /\ exists detail,
       fst (run string
              (pageloadHandler string 1705314225678 "id"
                 (mkRequest string
                    (JObject string [("url", JString string "https://example.com")])
                    None None None))
              (mkWorld string (mkStore string [] [] []) [] []))
       = Return (mkResponse 200 (Result true None))
       /\ timeKey string detail = bucketKey 1705314225678 ++ "#" ++ "id".
Proof.
  assert (H1 : validTime 1705314225678) by (unfold validTime, JSDate.maxTime; lia).
  assert (H2 : succeeds string 2 (mkWorld string (mkStore string [] [] []) [] []))
    by constructor.
  split; [exact H1|]. split; [exact H2|].
  destruct (pageload_issues_two_writes string 1705314225678 "id"
              (mkRequest string
                 (JObject string [("url", JString string "https://example.com")])
                 None None None)
              (mkWorld string (mkStore string [] [] []) [] []) H1 H2)
    as (detail & Hrun & _ & Hkey & _).
  exists detail. split; [rewrite Hrun; reflexivity|exact Hkey].
Defined.

Lemma event_issues_one_append_witness :
  validTime 1705314225678
  /\ succeeds string 1 (mkWorld string (mkStore string [] [] []) [] [])
  /\ exists detail,
       fst (run string
              (eventHandler string (fun n => n) 1705314225678 "id"
                 (mkRequest string
                    (JObject string
                       [("event", JString string "button_click");
                        ("data", JObject string
                                   [("buttonId", JString string "submit-form")])])
                    None None None))
              (mkWorld string (mkStore string [] [] []) [] []))
       = Return (mkResponse 200 (Result true None))
       /\ eventType string detail = "event_button_click".
Proof.
  assert (H1 : validTime 1705314225678) by (unfold validTime, JSDate.maxTime; lia).
  assert (H2 : succeeds string 1 (mkWorld string (mkStore string [] [] []) [] []))
    by constructor.
  split; [exact H1|]. split; [exact H2|].
  destruct (event_issues_one_append string (fun n => n) 1705314225678 "id"
              (mkRequest string
                 (JObject string
                    [("event", JString string "button_click");
                     ("data", JObject string
                                [("buttonId", JString string "submit-form")])])
                 None None None)
              (mkWorld string (mkStore string [] [] []) [] [])
              _ "button_click"
              (JObject string [("buttonId", JString string "submit-form")])
              H1 eq_refl eq_refl eq_refl H2)
    as (detail & Hrun & Het & _).
  exists detail. split; [rewrite Hrun; reflexivity|exact Het].
Defined.

Lemma pageload_append_failure_keeps_increment_witness :
  validTime 1705314225678
  /\ exists w',
       run string
         (pageloadHandler string 1705314225678 "id"
            (mkRequest string (JObject string []) None None None))
         (mkWorld string (mkStore string [] [] [])
                  [None; Some (mkError "Error" "append failed")] [])
       = (Return (mkResponse 500 (Result false (Some "append failed"))), w')
       /\ bucketCount "pageLoad" (bucketKey 1705314225678)
            (pageLoads string (db string w')) = 1.
Proof.
  assert (H1 : validTime 1705314225678) by (unfold validTime, JSDate.maxTime; lia).
  split; [exact H1|].
  destruct (pageload_append_failure_keeps_increment string 1705314225678 "id"
              (mkRequest string (JObject string []) None None None)
              (mkWorld string (mkStore string [] [] [])
                       [None; Some (mkError "Error" "append failed")] [])
              (mkError "Error" "append failed") [] H1 eq_refl)
    as (w' & detail & Hrun & _ & Hcount & _).
  exists w'. split; [exact Hrun|exact Hcount].
Defined.

Lemma handler_failures_become_500_witness :
  validTime 1705314225678
  /\ fst (run string
            (pageloadHandler string 1705314225678 "id"
               (mkRequest string
                  (JObject string [("url", JString string "https://example.com")])
                  None None None))
            (mkWorld string (mkStore string [] [] [])
                     [Some (mkError "Error" "Database error")] []))
     = Return (mkResponse 500 (Result false (Some "Database error"))).
Proof.
  assert (H1 : validTime 1705314225678) by (unfold validTime, JSDate.maxTime; lia).
  split; [exact H1|].
  destruct (handler_failures_become_500 string (fun n => n) (fun _ => "")
              1705314225678 "id"
              (mkRequest string
                 (JObject string [("url", JString string "https://example.com")])
                 None None None)
              (mkWorld string (mkStore string [] [] [])
                       [Some (mkError "Error" "Database error")] []))
    as (_ & _ & _ & Hinc & _).
  exact (Hinc (mkError "Error" "Database error") [] H1 eq_refl).
Defined.

Lemma event_without_name_is_recorded_witness :
  validTime 1705314225678
  /\ succeeds string 1 (mkWorld string (mkStore string [] [] []) [] [])
  /\ exists detail,
       run string
         (eventHandler string (fun n => n) 1705314225678 "id"
            (mkRequest string (JObject string [("data", JNull string)]) None None None))
         (mkWorld string (mkStore string [] [] []) [] [])
       = (Return (mkResponse 200 (Result true None)),
          mkWorld string (mkStore string [] [] [detail]) []
                  [AnalyticsEventModel_create string detail])
       /\ eventType string detail = "event_undefined".
Proof.
  assert (H1 : validTime 1705314225678) by (unfold validTime, JSDate.maxTime; lia).
  assert (H2 : succeeds string 1 (mkWorld string (mkStore string [] [] []) [] []))
    by constructor.
  split; [exact H1|]. split; [exact H2|].
  exact (event_without_name_is_recorded string (fun n => n) 1705314225678 "id"
           (mkRequest string (JObject string [("data", JNull string)]) None None None)
           (mkWorld string (mkStore string [] [] []) [] [])
           [("data", JNull string)] H1 eq_refl eq_refl H2).
Defined.

(** Two page loads of one minute, interleaved: first increment, second
    increment, second append, first append. *)
Lemma concurrent_increments_are_counted_witness :
  (1 <= List.length
          (filter (incrementsKey string "2024-01-15T10:230:00")
             [PostPageload string 1705314225678 "a"
                (mkRequest string (JObject string []) None None None);
              PostPageload string 1705314200000 "b"
                (mkRequest string (JObject string []) None None None)]))%nat
  /\ exists now,
       validTime now /\ bucketKey now = "2024-01-15T10:230:00"
       /\ countersFor "pageLoad" "2024-01-15T10:230:00"
            (pageLoads string
               (db string
                  (snd (interleave string [0; 1; 1; 0]%nat
                          (map (handle string (fun n => n) (fun _ => ""))
                               [PostPageload string 1705314225678 "a"
                                  (mkRequest string (JObject string []) None None None);
                                PostPageload string 1705314200000 "b"
                                  (mkRequest string (JObject string []) None None None)])
                          (mkWorld string (mkStore string [] [] []) [] [])))))
          = [PageLoad.mk "pageLoad" "2024-01-15T10:230:00" 2 (Some now)].
Proof.
  assert (HN : (1 <= List.length
                      (filter (incrementsKey string "2024-01-15T10:230:00")
                         [PostPageload string 1705314225678 "a"
                            (mkRequest string (JObject string []) None None None);
                          PostPageload string 1705314200000 "b"
                            (mkRequest string (JObject string []) None None None)]))%nat).
  { vm_compute. repeat constructor. }
  split; [exact HN|].
  destruct (concurrent_increments_are_counted string (fun n => n) (fun _ => "")
              "2024-01-15T10:230:00"
              [PostPageload string 1705314225678 "a"
                 (mkRequest string (JObject string []) None None None);
               PostPageload string 1705314200000 "b"
                 (mkRequest string (JObject string []) None None None)]
              (mkWorld string (mkStore string [] [] []) [] [])
              eq_refl eq_refl HN)
    as (_ & _ & _ & Hall).
  destruct (Hall [0; 1; 1; 0]%nat _ _ (surjective_pairing _))
    as (now & uuid & req & _ & Hv & Hk & Hc).
  - vm_compute. reflexivity.
  - exists now. split; [exact Hv|]. split; [exact Hk|exact Hc].
Defined.

(** Two page loads of one minute, interleaved, from an empty store. *)
Lemma unique_pairs_are_kept_witness :
  uniquePairs []
  /\ uniquePairs
       (pageLoads string
          (db string
             (snd (interleave string [0; 1; 1; 0]%nat
                     (map (handle string (fun n => n) (fun _ => ""))
                          [PostPageload string 1705314225678 "a"
                             (mkRequest string (JObject string []) None None None);
                           PostPageload string 1705314200000 "b"
                             (mkRequest string (JObject string []) None None None)])
                     (mkWorld string (mkStore string [] [] []) [] []))))).
Proof.
  assert (H : uniquePairs []) by constructor.
  split; [exact H|].
  exact (unique_pairs_are_kept string [0; 1; 1; 0]%nat _
           (mkWorld string (mkStore string [] [] []) [] []) H).
Defined.

Lemma pageload_touches_one_bucket_witness :
  ("pageLoad", "2024-01-15T10:240:00") <> ("pageLoad", bucketKey 1705314225678)
  /\ countersFor "pageLoad" "2024-01-15T10:240:00"
       (pageLoads string
          (db string
             (snd (run string
                     (pageloadHandler string 1705314225678 "id"
                        (mkRequest string (JObject string []) None None None))
                     (mkWorld string
                        (mkStore string
                           [PageLoad.mk "pageLoad" "2024-01-15T10:240:00" 7 (Some 0)]
                           [] []) [] [])))))
     = [PageLoad.mk "pageLoad" "2024-01-15T10:240:00" 7 (Some 0)].
Proof.
  assert (H : ("pageLoad", "2024-01-15T10:240:00")
              <> ("pageLoad", bucketKey 1705314225678))
    by (vm_compute; intros E; discriminate E).
  split; [exact H|].
  exact (proj1 (pageload_touches_one_bucket string 1705314225678 "id"
                  (mkRequest string (JObject string []) None None None)
                  (mkWorld string
                     (mkStore string
                        [PageLoad.mk "pageLoad" "2024-01-15T10:240:00" 7 (Some 0)]
                        [] []) [] [])
                  "pageLoad" "2024-01-15T10:240:00" H)).
Defined.

Lemma pageload_increment_failure_writes_nothing_witness :
  validTime 1705314225678
  /\ run string
       (pageloadHandler string 1705314225678 "id"
          (mkRequest string (JObject string []) None None None))
       (mkWorld string (mkStore string [] [] [])
                [Some (mkError "Error" "Database error")] [])
     = (Return (mkResponse 500 (Result false (Some "Database error"))),
        mkWorld string (mkStore string [] [] []) []
                [PageLoadModel_findOneAndUpdate string
                   (mkFilter "pageLoad" (bucketKey 1705314225678))
                   (mkUpdate 1 (Some 1705314225678))]).
Proof.
  assert (H1 : validTime 1705314225678) by (unfold validTime, JSDate.maxTime; lia).
  split; [exact H1|].
  exact (pageload_increment_failure_writes_nothing string 1705314225678 "id"
           (mkRequest string (JObject string []) None None None)
           (mkWorld string (mkStore string [] [] [])
                    [Some (mkError "Error" "Database error")] [])
           (mkError "Error" "Database error") [] H1 eq_refl).
Defined.

Lemma event_without_body_is_rejected_witness :
  (JUndefined string = JUndefined string \/ JUndefined string = JNull string)
  /\ exists msg,
       run string
         (eventHandler string (fun n => n) 1705314225678 "id"
            (mkRequest string (JUndefined string) None None None))
         (mkWorld string (mkStore string [] [] []) [] [])
       = (Return (mkResponse 500 (Result false (Some msg))),
          mkWorld string (mkStore string [] [] []) [] []).
Proof.
  assert (H : JUndefined string = JUndefined string \/ JUndefined string = JNull string)
    by (left; reflexivity).
  split; [exact H|].
  exact (event_without_body_is_rejected string (fun n => n) 1705314225678 "id"
           (mkRequest string (JUndefined string) None None None)
           (mkWorld string (mkStore string [] [] []) [] []) H).
Defined.

Lemma stored_documents_stay_well_formed_witness :
  wellFormedStore string (mkStore string [] [] [])
  /\ wellFormedStore string
       (db string
          (snd (interleave string [0; 1; 1; 0; 2]%nat
                  (map (handle string (fun n => n) (fun _ => ""))
                       [PostPageload string 1705314225678 "a"
                          (mkRequest string (JObject string []) None None None);
                        PostPageload string 1705314200000 "b"
                          (mkRequest string (JObject string []) (Some "") None None);
                        PostEvent string 1705314200000 "c"
                          (mkRequest string (JObject string []) None None None)])
                  (mkWorld string (mkStore string [] [] []) [None; Some (mkError "E" "m")] [])))).
Proof.
  assert (H : wellFormedStore string (mkStore string [] [] []))
    by (repeat split; constructor).
  split; [exact H|].
  exact (stored_documents_stay_well_formed string (fun n => n) (fun _ => "") _
           [0; 1; 1; 0; 2]%nat
           (mkWorld string (mkStore string [] [] []) [None; Some (mkError "E" "m")] []) H).
Defined.

Lemma series_counts_are_store_counts_witness :
  fourDigitYear 1705314225678 /\ fourDigitYear (1705314225678 - 3600000)
  /\ succeeds string 1
       (mkWorld string
          (mkStore string [PageLoad.mk "pageLoad" "2024-01-15T10:200:00" 4 (Some 0)] [] [])
          [] [])
  /\ exists slots,
       fst (run string (pageloadsHandler string (fun _ => "") 1705314225678)
              (mkWorld string
                 (mkStore string
                    [PageLoad.mk "pageLoad" "2024-01-15T10:200:00" 4 (Some 0)] [] [])
                 [] []))
       = Return (mkResponse 200 (PageLoads slots))
       /\ nth_error slots 56 = Some (Slot.mk "2024-01-15T10:200:00" "" 4).
Proof.
  assert (H1 : fourDigitYear 1705314225678) by (unfold fourDigitYear; lia).
  assert (H2 : fourDigitYear (1705314225678 - 3600000)) by (unfold fourDigitYear; lia).
  assert (H3 : succeeds string 1
                 (mkWorld string
                    (mkStore string
                       [PageLoad.mk "pageLoad" "2024-01-15T10:200:00" 4 (Some 0)] [] [])
                    [] [])) by constructor.
  split; [exact H1|]. split; [exact H2|]. split; [exact H3|].
  eexists. split.
  - exact (series_counts_are_store_counts string (fun _ => "") 1705314225678 _ H1 H2 H3).
  - vm_compute. reflexivity.
Defined.

Lemma slot_keys_strictly_increase_witness :
  fourDigitYear 1705314225678 /\ fourDigitYear (1705314225678 - 3600000)
  /\ String.compare (bucketKey (1705314225678 - 1 * 60000))
                    (bucketKey (1705314225678 - 0 * 60000)) = Lt.
Proof.
  assert (H1 : fourDigitYear 1705314225678) by (unfold fourDigitYear; lia).
  assert (H2 : fourDigitYear (1705314225678 - 3600000)) by (unfold fourDigitYear; lia).
  split; [exact H1|]. split; [exact H2|].
  apply (proj1 (slot_keys_strictly_increase (fun _ => "") 1705314225678 H1 H2)); lia.
Defined.

(** A page load at 10:23:20 read back at 10:28:45: the slot of index 5. *)
Lemma recorded_page_load_shows_in_series_witness :
  fourDigitYear 1705314525678 /\ fourDigitYear (1705314525678 - 3600000)
  /\ 0 <= 5 < 60
  /\ 1705314200000 / 60000 = (1705314525678 - 5 * 60000) / 60000
  /\ succeeds string 3 (mkWorld string (mkStore string [] [] []) [] [])
  /\ exists slots,
       fst (run string (pageloadsHandler string (fun _ => "") 1705314525678)
              (snd (run string
                      (pageloadHandler string 1705314200000 "id"
                         (mkRequest string (JObject string []) None None None))
                      (mkWorld string (mkStore string [] [] []) [] []))))
       = Return (mkResponse 200 (PageLoads slots))
       /\ nth_error slots 54 = Some (Slot.mk "2024-01-15T10:230:00" "" 1)
       /\ nth_error slots 55 = Some (Slot.mk "2024-01-15T10:240:00" "" 0).
Proof.
  assert (H1 : fourDigitYear 1705314525678) by (unfold fourDigitYear; lia).
  assert (H2 : fourDigitYear (1705314525678 - 3600000)) by (unfold fourDigitYear; lia).
  assert (H3 : 0 <= 5 < 60) by lia.
  assert (H4 : 1705314200000 / 60000 = (1705314525678 - 5 * 60000) / 60000)
    by reflexivity.
  assert (H5 : succeeds string 3 (mkWorld string (mkStore string [] [] []) [] []))
    by constructor.
  split; [exact H1|]. split; [exact H2|]. split; [exact H3|]. split; [exact H4|].
  split; [exact H5|].
  eexists. split.
  - exact (recorded_page_load_shows_in_series string (fun _ => "")
             1705314200000 1705314525678 5 "id"
             (mkRequest string (JObject string []) None None None)
             (mkWorld string (mkStore string [] [] []) [] []) H1 H2 H3 H4 H5).
  - vm_compute. split; reflexivity.
Defined.

Lemma event_key_determines_instant_and_identifier_witness :
  fourDigitYear 1705314225678 /\ fourDigitYear 1705314225679
  /\ String.compare (JSDate.isoString 1705314225678) (JSDate.isoString 1705314225679)
     = (1705314225678 ?= 1705314225679).
Proof.
  assert (H1 : fourDigitYear 1705314225678) by (unfold fourDigitYear; lia).
  assert (H2 : fourDigitYear 1705314225679) by (unfold fourDigitYear; lia).
  split; [exact H1|]. split; [exact H2|].
  exact (proj1 (event_key_determines_instant_and_identifier
                  1705314225678 1705314225679 "a" "b" H1 H2)).
Defined.

(** Two page loads of one minute, the first increment failing. *)
Lemma bucket_is_never_overcounted_witness :
  countersFor "pageLoad" "2024-01-15T10:230:00" [] = []
  /\ (countersFor "pageLoad" "2024-01-15T10:230:00"
        (pageLoads string
           (db string
              (snd (interleave string [0; 1; 1; 0]%nat
                      (map (handle string (fun n => n) (fun _ => ""))
                           [PostPageload string 1705314225678 "a"
                              (mkRequest string (JObject string []) None None None);
                            PostPageload string 1705314200000 "b"
                              (mkRequest string (JObject string []) None None None)])
                      (mkWorld string (mkStore string [] [] [])
                               [Some (mkError "Error" "Database error")] []))))) = []
      \/ exists c now uuid req,
           1 <= c <= Z.of_nat
                       (List.length
                          (filter (incrementsKey string "2024-01-15T10:230:00")
                             [PostPageload string 1705314225678 "a"
                                (mkRequest string (JObject string []) None None None);
                              PostPageload string 1705314200000 "b"
                                (mkRequest string (JObject string []) None None None)]))
           /\ In (PostPageload string now uuid req)
                 [PostPageload string 1705314225678 "a"
                    (mkRequest string (JObject string []) None None None);
                  PostPageload string 1705314200000 "b"
                    (mkRequest string (JObject string []) None None None)]
           /\ bucketKey now = "2024-01-15T10:230:00"
           /\ countersFor "pageLoad" "2024-01-15T10:230:00"
                (pageLoads string
                   (db string
                      (snd (interleave string [0; 1; 1; 0]%nat
                              (map (handle string (fun n => n) (fun _ => ""))
                                   [PostPageload string 1705314225678 "a"
                                      (mkRequest string (JObject string []) None None None);
                                    PostPageload string 1705314200000 "b"
                                      (mkRequest string (JObject string []) None None None)])
                              (mkWorld string (mkStore string [] [] [])
                                       [Some (mkError "Error" "Database error")] [])))))
              = [PageLoad.mk "pageLoad" "2024-01-15T10:230:00" c (Some now)]).
Proof.
  assert (H : countersFor "pageLoad" "2024-01-15T10:230:00" [] = []) by reflexivity.
  split; [exact H|].
  exact (bucket_is_never_overcounted string (fun n => n) (fun _ => "")
           "2024-01-15T10:230:00" _ [0; 1; 1; 0]%nat
           (mkWorld string (mkStore string [] [] [])
                    [Some (mkError "Error" "Database error")] []) H).
Defined.

(** The body [{ "event": { "toString": 1 } }]: the event name has no string
    form, so the request is answered 500 and no store call is issued. *)
Example event_name_with_own_toString :
  exists msg,
    run string
      (eventHandler string (fun n => n) 1705314225678 "id"
         (mkRequest string
            (JObject string
               [("event", JObject string [("toString", JNumber string "1")])])
            None None None))
      (mkWorld string (mkStore string [] [] []) [] [])
    = (Return (mkResponse 500 (Result false (Some msg))),
       mkWorld string (mkStore string [] [] []) [] []).
Proof. eexists. vm_compute. reflexivity. Qed.

(** Arrays print their elements joined by commas, nested arrays flattened. *)
Example array_name_joins :
  ToString string (fun n => n)
    (JArray string
       [JNumber string "1"; JNull string;
        JArray string [JString string "a"; JBool string true];
        JObject string [("valueOf", JNumber string "2")]])
  = Return "1,,a,true,[object Object]".
Proof. reflexivity. Qed.
